(** * AfroVice API: a shallow embedding of [main.py]

    The program is a FastAPI application over SQLAlchemy mapped classes and
    Pydantic contracts.  The embedding follows the file top to bottom:

    - the storage engine: one table per mapped class, each with its rows (in
      insertion order) and the sequence that feeds its primary key, and the
      constraints the [Column] declarations state (PRIMARY KEY, UNIQUE,
      FOREIGN KEY, the widths of [Integer] and [BigInteger]);
    - the ORM session: [add], [commit], [refresh], [get], [query(..).all()],
      over a heap of instances, since [commit] and [refresh] mutate the
      instance the handler holds;
    - the Pydantic create and read contracts, and the serialisation a
      [response_model] performs;
    - the handlers, the dependency [get_db] and the routing table.

    Modelling conventions.

    - A request carries a create contract that validation has accepted:
      the parsing of the JSON body, the syntax check of [EmailStr] and the
      422 answer to a body that fails them happen before any handler runs
      and are not part of the model.
    - A [datetime] is an opaque instant; a string is opaque text that a
      text column can hold, and a stored email is one [EmailStr] accepts.
    - The storage engine is reliable: the only errors it raises are the
      ones the declared columns and constraints give rise to.  Loss of
      connectivity is not modelled.
    - The body of the bare 500 an unhandled exception is answered with is
      plain text; it is kept as a JSON string. *)

From Stdlib Require Import ZArith List String Bool Lia.
Import ListNotations.
Open Scope string_scope.
Open Scope list_scope.
Open Scope Z_scope.

Set Implicit Arguments.
Set Warnings "-register-all".

(* ================================================================== *)
(** ** Values *)

Definition datetime := Z.

Inductive json : Type :=
| JNull
| JInt (n : Z)
| JStr (s : string)
| JDatetime (d : datetime)
| JArr (items : list json)
| JObj (fields : list (string * json)).

Definition opt_json {A} (f : A -> json) (o : option A) : json :=
  match o with
  | Some a => f a
  | None => JNull
  end.

Definition keys (j : json) : list string :=
  match j with
  | JObj fields => map fst fields
  | _ => []
  end.

Fixpoint assoc (k : string) (fields : list (string * json)) : option json :=
  match fields with
  | [] => None
  | (k', v) :: rest => if String.eqb k k' then Some v else assoc k rest
  end.

Definition field (k : string) (j : json) : option json :=
  match j with
  | JObj fields => assoc k fields
  | _ => None
  end.

(** [mentions k j]: the key [k] occurs in [j] at any depth. *)
Fixpoint mentions (k : string) (j : json) : bool :=
  match j with
  | JArr items =>
      (fix any (l : list json) : bool :=
         match l with
         | [] => false
         | x :: l' => mentions k x || any l'
         end) items
  | JObj fields =>
      (fix any (l : list (string * json)) : bool :=
         match l with
         | [] => false
         | (k', v) :: l' => String.eqb k k' || mentions k v || any l'
         end) fields
  | _ => false
  end.

(* ================================================================== *)
(** ** SQLAlchemy models

    One record per mapped class, with the columns of the class.  [id] is
    [None] on an instance that has not been flushed.  A relationship
    attribute is modelled where the program reads it ([Comment.user] and
    [Comment.presentation]); it is either not loaded yet or holds what the
    join found. *)

Inductive rel (A : Type) : Type :=
| Unloaded
| Loaded (v : option A).
Arguments Unloaded {A}.
Arguments Loaded {A} v.

Module Role.
Record t := mk
  { id : option Z;
    created_at : datetime;
    name : string }.
End Role.

Module User.
Record t := mk
  { id : option Z;
    created_at : datetime;
    name : string;
    email : string;
    password : string;
    role_id : Z;
    photo : option string }.
End User.

Module MusicGender.
Record t := mk
  { id : option Z;
    created_at : datetime;
    name : string }.
End MusicGender.

Module Artist.
Record t := mk
  { id : option Z;
    created_at : datetime;
    name : string;
    photo : string }.
End Artist.

Module ArtistGender.
Record t := mk
  { id : option Z;
    created_at : datetime;
    artist_id : Z;
    music_gender_id : Z }.
End ArtistGender.

Module Event.
Record t := mk
  { id : option Z;
    created_at : datetime;
    name : option string;
    logo : option string;
    price : Z }.
End Event.

Module Presentation.
Record t := mk
  { id : option Z;
    created_at : datetime;
    event_id : Z;
    date_start : datetime;
    date_end : option datetime;
    flyer : string }.
End Presentation.

Module PresentationArtist.
Record t := mk
  { id : option Z;
    created_at : datetime;
    presentation_id : Z;
    artist_id : Z;
    schedule : datetime }.
End PresentationArtist.

Module Ticket.
Record t := mk
  { id : option Z;
    created_at : datetime;
    user_id : Z;
    presentation_id : Z }.
End Ticket.

Module Comment.
Record t := mk
  { id : option Z;
    created_at : datetime;
    message : string;
    presentation_id : option Z;
    user_id : option Z;
    presentation : rel Presentation.t;
    user : rel User.t }.
End Comment.

(* ================================================================== *)
(** ** The storage engine *)

(** A table keeps its rows under their primary key, in insertion order
    (the order a query without ORDER BY returns them in), and the sequence
    its [id] column draws from.  [main.py] declares the tables and leaves
    their creation to others; the [id] of a new row is taken to come from
    a sequence of its table, which is what SQLAlchemy asks of the database
    for an integer primary key the instance does not set. *)
Record table (R : Type) : Type := Table
  { rows : list (Z * R);
    seq : Z }.

Definition empty_table {R} : table R := {| rows := []; seq := 1 |}.

Record DB : Type := mkDB
  { tbl_Role : table Role.t;
    tbl_User : table User.t;
    tbl_Music_Gender : table MusicGender.t;
    tbl_Artist : table Artist.t;
    tbl_Artist_Gender : table ArtistGender.t;
    tbl_Event : table Event.t;
    tbl_Presentation : table Presentation.t;
    tbl_Presentation_Artist : table PresentationArtist.t;
    tbl_Ticket : table Ticket.t;
    tbl_Comment : table Comment.t }.

Definition empty_db : DB :=
  mkDB empty_table empty_table empty_table empty_table empty_table
       empty_table empty_table empty_table empty_table empty_table.

Definition int32 (n : Z) : bool := (- 2 ^ 31 <=? n) && (n <=? 2 ^ 31 - 1).
Definition int64 (n : Z) : bool := (- 2 ^ 63 <=? n) && (n <=? 2 ^ 63 - 1).

Definition opt_ok {A} (p : A -> bool) (o : option A) : bool :=
  match o with
  | Some a => p a
  | None => true
  end.

(** What the declarative mapping of a class gives the session: its primary
    key, its table, the widths of its integer columns, its UNIQUE and
    FOREIGN KEY constraints, and how an instance is loaded from a row
    (relationship attributes start unloaded). *)
Class Mapped (R : Type) : Type :=
  { pk : R -> option Z;
    set_pk : Z -> R -> R;
    get_table : DB -> table R;
    set_table : table R -> DB -> DB;
    in_range : R -> bool;
    constraints : DB -> R -> bool;
    load : R -> R }.

Definition has_pk {R} (k : Z) (l : list (Z * R)) : bool :=
  existsb (fun p => Z.eqb (fst p) k) l.

(** The instance a row is loaded as. *)
Definition instance {R} `{Mapped R} (p : Z * R) : R :=
  set_pk (fst p) (load (snd p)).

Definition find_pk {R} `{Mapped R} (k : Z) (l : list (Z * R)) : option R :=
  option_map instance (find (fun p => Z.eqb (fst p) k) l).

Definition references {R} `{Mapped R} (d : DB) (k : Z) : bool :=
  has_pk k (rows (get_table d)).

#[export] Instance Mapped_Role : Mapped Role.t :=
  { pk := Role.id;
    set_pk := fun k r => Role.mk (Some k) (Role.created_at r) (Role.name r);
    get_table := tbl_Role;
    set_table := fun t d =>
      mkDB t (tbl_User d) (tbl_Music_Gender d) (tbl_Artist d)
           (tbl_Artist_Gender d) (tbl_Event d) (tbl_Presentation d)
           (tbl_Presentation_Artist d) (tbl_Ticket d) (tbl_Comment d);
    in_range := fun _ => true;
    constraints := fun d r =>
      negb (existsb (fun p => String.eqb (Role.name (snd p)) (Role.name r))
                    (rows (tbl_Role d)));
    load := fun r => r }.

#[export] Instance Mapped_User : Mapped User.t :=
  { pk := User.id;
    set_pk := fun k r =>
      User.mk (Some k) (User.created_at r) (User.name r) (User.email r)
              (User.password r) (User.role_id r) (User.photo r);
    get_table := tbl_User;
    set_table := fun t d =>
      mkDB (tbl_Role d) t (tbl_Music_Gender d) (tbl_Artist d)
           (tbl_Artist_Gender d) (tbl_Event d) (tbl_Presentation d)
           (tbl_Presentation_Artist d) (tbl_Ticket d) (tbl_Comment d);
    in_range := fun r => int64 (User.role_id r);
    constraints := fun d r => references (R := Role.t) d (User.role_id r);
    load := fun r => r }.

#[export] Instance Mapped_MusicGender : Mapped MusicGender.t :=
  { pk := MusicGender.id;
    set_pk := fun k r =>
      MusicGender.mk (Some k) (MusicGender.created_at r) (MusicGender.name r);
    get_table := tbl_Music_Gender;
    set_table := fun t d =>
      mkDB (tbl_Role d) (tbl_User d) t (tbl_Artist d)
           (tbl_Artist_Gender d) (tbl_Event d) (tbl_Presentation d)
           (tbl_Presentation_Artist d) (tbl_Ticket d) (tbl_Comment d);
    in_range := fun _ => true;
    constraints := fun d r =>
      negb (existsb (fun p => String.eqb (MusicGender.name (snd p))
                                         (MusicGender.name r))
                    (rows (tbl_Music_Gender d)));
    load := fun r => r }.

#[export] Instance Mapped_Artist : Mapped Artist.t :=
  { pk := Artist.id;
    set_pk := fun k r =>
      Artist.mk (Some k) (Artist.created_at r) (Artist.name r) (Artist.photo r);
    get_table := tbl_Artist;
    set_table := fun t d =>
      mkDB (tbl_Role d) (tbl_User d) (tbl_Music_Gender d) t
           (tbl_Artist_Gender d) (tbl_Event d) (tbl_Presentation d)
           (tbl_Presentation_Artist d) (tbl_Ticket d) (tbl_Comment d);
    in_range := fun _ => true;
    constraints := fun _ _ => true;
    load := fun r => r }.

#[export] Instance Mapped_Event : Mapped Event.t :=
  { pk := Event.id;
    set_pk := fun k r =>
      Event.mk (Some k) (Event.created_at r) (Event.name r) (Event.logo r)
               (Event.price r);
    get_table := tbl_Event;
    set_table := fun t d =>
      mkDB (tbl_Role d) (tbl_User d) (tbl_Music_Gender d) (tbl_Artist d)
           (tbl_Artist_Gender d) t (tbl_Presentation d)
           (tbl_Presentation_Artist d) (tbl_Ticket d) (tbl_Comment d);
    in_range := fun r => int32 (Event.price r);
    constraints := fun _ _ => true;
    load := fun r => r }.

#[export] Instance Mapped_Presentation : Mapped Presentation.t :=
  { pk := Presentation.id;
    set_pk := fun k r =>
      Presentation.mk (Some k) (Presentation.created_at r)
                      (Presentation.event_id r) (Presentation.date_start r)
                      (Presentation.date_end r) (Presentation.flyer r);
    get_table := tbl_Presentation;
    set_table := fun t d =>
      mkDB (tbl_Role d) (tbl_User d) (tbl_Music_Gender d) (tbl_Artist d)
           (tbl_Artist_Gender d) (tbl_Event d) t
           (tbl_Presentation_Artist d) (tbl_Ticket d) (tbl_Comment d);
    in_range := fun r => int64 (Presentation.event_id r);
    constraints := fun d r =>
      references (R := Event.t) d (Presentation.event_id r);
    load := fun r => r }.

#[export] Instance Mapped_Ticket : Mapped Ticket.t :=
  { pk := Ticket.id;
    set_pk := fun k r =>
      Ticket.mk (Some k) (Ticket.created_at r) (Ticket.user_id r)
                (Ticket.presentation_id r);
    get_table := tbl_Ticket;
    set_table := fun t d =>
      mkDB (tbl_Role d) (tbl_User d) (tbl_Music_Gender d) (tbl_Artist d)
           (tbl_Artist_Gender d) (tbl_Event d) (tbl_Presentation d)
           (tbl_Presentation_Artist d) t (tbl_Comment d);
    in_range := fun r =>
      int64 (Ticket.user_id r) && int64 (Ticket.presentation_id r);
    constraints := fun d r =>
      references (R := User.t) d (Ticket.user_id r)
      && references (R := Presentation.t) d (Ticket.presentation_id r);
    load := fun r => r }.

#[export] Instance Mapped_Comment : Mapped Comment.t :=
  { pk := Comment.id;
    set_pk := fun k r =>
      Comment.mk (Some k) (Comment.created_at r) (Comment.message r)
                 (Comment.presentation_id r) (Comment.user_id r)
                 (Comment.presentation r) (Comment.user r);
    get_table := tbl_Comment;
    set_table := fun t d =>
      mkDB (tbl_Role d) (tbl_User d) (tbl_Music_Gender d) (tbl_Artist d)
           (tbl_Artist_Gender d) (tbl_Event d) (tbl_Presentation d)
           (tbl_Presentation_Artist d) (tbl_Ticket d) t;
    in_range := fun r =>
      opt_ok int64 (Comment.presentation_id r)
      && opt_ok int64 (Comment.user_id r);
    constraints := fun d r =>
      opt_ok (references (R := Presentation.t) d) (Comment.presentation_id r)
      && opt_ok (references (R := User.t) d) (Comment.user_id r);
    load := fun r =>
      Comment.mk (Comment.id r) (Comment.created_at r) (Comment.message r)
                 (Comment.presentation_id r) (Comment.user_id r)
                 Unloaded Unloaded }.

(* ================================================================== *)
(** ** Exceptions and results *)

Inductive exn : Type :=
| HTTPException (status_code : Z) (detail : string)
| IntegrityError            (* a PRIMARY KEY, UNIQUE or FOREIGN KEY violation *)
| DataError                 (* a value outside the width of its column *)
| InvalidRequestError       (* refresh of an instance that has no row *)
| ResponseValidationError.  (* the returned object does not fit the response_model *)

Inductive result (A : Type) : Type :=
| Ok (a : A)
| Raise (e : exn).
Arguments Ok {A} a.
Arguments Raise {A} e.

(** *** INSERT

    The statement the flush of a pending instance executes.  A value wider
    than its column is refused before the row is built.  Otherwise the
    [id], absent from the instance, is drawn from the sequence of the table
    (a value drawn stays drawn when the statement fails), and the row is
    appended unless a constraint refuses it. *)
Definition INSERT {R} `{Mapped R} (r : R) (d : DB) : DB * result R :=
  if negb (in_range r) then (d, Raise DataError)
  else
    let t := get_table d in
    let k := match pk r with Some k => k | None => seq t end in
    let seq' := match pk r with Some _ => seq t | None => seq t + 1 end in
    if has_pk k (rows t) || negb (constraints d r)
    then (set_table {| rows := rows t; seq := seq' |} d, Raise IntegrityError)
    else (set_table {| rows := rows t ++ [(k, set_pk k r)]; seq := seq' |} d,
          Ok (set_pk k r)).

(** ROLLBACK gives back the rows the transaction started from; sequences
    are not transactional. *)
Definition restore {R} (old new : table R) : table R :=
  {| rows := rows old; seq := seq new |}.

Definition rollback (old new : DB) : DB :=
  {| tbl_Role := restore (tbl_Role old) (tbl_Role new);
     tbl_User := restore (tbl_User old) (tbl_User new);
     tbl_Music_Gender := restore (tbl_Music_Gender old) (tbl_Music_Gender new);
     tbl_Artist := restore (tbl_Artist old) (tbl_Artist new);
     tbl_Artist_Gender :=
       restore (tbl_Artist_Gender old) (tbl_Artist_Gender new);
     tbl_Event := restore (tbl_Event old) (tbl_Event new);
     tbl_Presentation := restore (tbl_Presentation old) (tbl_Presentation new);
     tbl_Presentation_Artist :=
       restore (tbl_Presentation_Artist old) (tbl_Presentation_Artist new);
     tbl_Ticket := restore (tbl_Ticket old) (tbl_Ticket new);
     tbl_Comment := restore (tbl_Comment old) (tbl_Comment new) |}.

(* ================================================================== *)
(** ** The state a request runs in

    What outlives a request is the [World]: the database and the sessions
    that are open.  A request adds the reading of the server clock it
    takes, the heap of the instances its handler builds (a handler builds
    instances of one mapped class, [H]) and the instances added to a
    session and not flushed yet. *)

Record World : Type := mkWorld
  { database : DB;
    live : list nat;          (* the open sessions *)
    next_sid : nat }.         (* how many sessions were ever opened *)

Record State (H : Type) : Type := mkState
  { world : World;
    clock : datetime;
    heap : list H;
    pending : list (nat * nat) }.   (* session, reference *)

Definition M (H A : Type) : Type := State H -> State H * result A.

Definition ret {H A} (a : A) : M H A := fun s => (s, Ok a).

Definition bind {H A B} (m : M H A) (k : A -> M H B) : M H B :=
  fun s =>
    match m s with
    | (s', Ok a) => k a s'
    | (s', Raise e) => (s', Raise e)
    end.

Definition raise {H A} (e : exn) : M H A := fun s => (s, Raise e).

(** [try: body finally: cleanup]: the cleanup runs however the body ends,
    and the outcome of the body is the outcome of the whole, unless the
    cleanup itself raises. *)
Definition try_finally {H A} (body : M H A) (cleanup : M H unit) : M H A :=
  fun s =>
    match body s with
    | (s', r) =>
        match cleanup s' with
        | (s'', Ok _) => (s'', r)
        | (s'', Raise e) => (s'', Raise e)
        end
    end.

Declare Scope monad_scope.
Delimit Scope monad_scope with monad.
Notation "x <- m ;; k" := (bind m (fun x => k))
  (at level 61, m at next level, right associativity) : monad_scope.
Notation "m ;; k" := (bind m (fun _ => k))
  (at level 61, right associativity) : monad_scope.
Open Scope monad_scope.

Definition set_world {H} (w : World) (s : State H) : State H :=
  {| world := w; clock := clock s; heap := heap s; pending := pending s |}.

Definition set_database {H} (d : DB) (s : State H) : State H :=
  set_world {| database := d; live := live (world s);
               next_sid := next_sid (world s) |} s.

Definition set_heap {H} (h : list H) (s : State H) : State H :=
  {| world := world s; clock := clock s; heap := h; pending := pending s |}.

Definition set_pending {H} (p : list (nat * nat)) (s : State H) : State H :=
  {| world := world s; clock := clock s; heap := heap s; pending := p |}.

(** [datetime.utcnow()] *)
Definition utcnow {H} : M H datetime := fun s => (s, Ok (clock s)).

(** *** The heap of instances *)

Fixpoint update {A} (l : list A) (i : nat) (a : A) : list A :=
  match l, i with
  | [], _ => []
  | _ :: l', O => a :: l'
  | x :: l', S i' => x :: update l' i' a
  end.

(** Calling a mapped class: a new transient instance. *)
Definition new {H} (o : H) : M H nat :=
  fun s => (set_heap (heap s ++ [o]) s, Ok (List.length (heap s))).

(** Reading through a reference.  A reference is only ever made by [new],
    so the error case is never reached. *)
Definition deref {H} (h : nat) : M H H :=
  fun s =>
    match nth_error (heap s) h with
    | Some o => (s, Ok o)
    | None => (s, Raise InvalidRequestError)
    end.

Definition assign {H} (h : nat) (o : H) : M H unit :=
  fun s => (set_heap (update (heap s) h o) s, Ok tt).

(** Running a statement on the database. *)
Definition execute {H A} (stmt : DB -> DB * result A) : M H A :=
  fun s =>
    match stmt (database (world s)) with
    | (d, r) => (set_database d s, r)
    end.

Definition select {H A} (q : DB -> A) : M H A :=
  fun s => (s, Ok (q (database (world s)))).

(* ================================================================== *)
(** ** The ORM session *)

Record Session : Type := mkSession { sid : nat }.

(** [SessionLocal()] *)
Definition SessionLocal {H} : M H Session :=
  fun s =>
    let w := world s in
    (set_world {| database := database w;
                  live := next_sid w :: live w;
                  next_sid := S (next_sid w) |} s,
     Ok {| sid := next_sid w |}).

Definition mine (db : Session) (p : nat * nat) : bool :=
  Nat.eqb (fst p) (sid db).

(** [db.close()]: what was added and never flushed is dropped. *)
Definition Session_close {H} (db : Session) : M H unit :=
  fun s =>
    let w := world s in
    (set_pending (filter (fun p => negb (mine db p)) (pending s))
       (set_world {| database := database w;
                     live := filter (fun i => negb (Nat.eqb i (sid db)))
                                    (live w);
                     next_sid := next_sid w |} s),
     Ok tt).

(** [db.add(obj)] *)
Definition Session_add {H} (db : Session) (obj : nat) : M H unit :=
  fun s => (set_pending (pending s ++ [(sid db, obj)]) s, Ok tt).

(** The flush: one INSERT per pending instance, in the order they were
    added; the instance takes the primary key the statement returns. *)
Fixpoint flush {H} `{Mapped H} (objs : list nat) : M H unit :=
  match objs with
  | [] => ret tt
  | obj :: rest =>
      o <- deref obj ;;
      o' <- execute (INSERT o) ;;
      assign obj o' ;;
      flush rest
  end.

(** [db.commit()]: flush, then COMMIT; when the flush raises, the
    transaction is rolled back and the exception goes up. *)
Definition Session_commit {H} `{Mapped H} (db : Session) : M H unit :=
  fun s =>
    match flush (map snd (filter (mine db) (pending s))) s with
    | (s', Ok _) =>
        (set_pending (filter (fun p => negb (mine db p)) (pending s')) s',
         Ok tt)
    | (s', Raise e) =>
        (set_database (rollback (database (world s)) (database (world s'))) s',
         Raise e)
    end.

(** [db.refresh(obj)]: the attributes are read again from the row of the
    instance. *)
Definition Session_refresh {H} `{Mapped H} (db : Session) (obj : nat)
  : M H unit :=
  o <- deref obj ;;
  match pk o with
  | None => raise InvalidRequestError
  | Some k =>
      row <- select (fun d => find_pk k (rows (get_table d))) ;;
      match row with
      | None => raise InvalidRequestError
      | Some o' => assign obj o'
      end
  end.

(** [db.get(cls, ident)] *)
Definition Session_get {H R} `{Mapped R} (db : Session) (ident : Z)
  : M H (option R) :=
  select (fun d => find_pk ident (rows (get_table d))).

(** [db.query(cls).options(..).all()]: every row of the table, each loaded
    as an instance and passed through the loader options. *)
Definition Session_query_all {H R} `{Mapped R} (db : Session)
    (options : list (DB -> R -> R)) : M H (list R) :=
  select (fun d =>
            map (fun p => fold_left (fun o opt => opt d o) options (instance p))
                (rows (get_table d))).

(** [joinedload(Comment.user)] and [joinedload(Comment.presentation)]: the
    LEFT OUTER JOIN on the foreign key. *)
Definition joinedload_user (d : DB) (c : Comment.t) : Comment.t :=
  Comment.mk (Comment.id c) (Comment.created_at c) (Comment.message c)
    (Comment.presentation_id c) (Comment.user_id c) (Comment.presentation c)
    (Loaded match Comment.user_id c with
            | Some k => find_pk k (rows (tbl_User d))
            | None => None
            end).

Definition joinedload_presentation (d : DB) (c : Comment.t) : Comment.t :=
  Comment.mk (Comment.id c) (Comment.created_at c) (Comment.message c)
    (Comment.presentation_id c) (Comment.user_id c)
    (Loaded match Comment.presentation_id c with
            | Some k => find_pk k (rows (tbl_Presentation d))
            | None => None
            end)
    (Comment.user c).

(** Reading a relationship attribute: what was loaded with the instance,
    or else the lazy load, a SELECT by the foreign key. *)
Definition Comment_user {H} (db : Session) (c : Comment.t)
  : M H (option User.t) :=
  match Comment.user c with
  | Loaded v => ret v
  | Unloaded =>
      match Comment.user_id c with
      | Some k => Session_get db k
      | None => ret None
      end
  end.

Definition Comment_presentation {H} (db : Session) (c : Comment.t)
  : M H (option Presentation.t) :=
  match Comment.presentation c with
  | Loaded v => ret v
  | Unloaded =>
      match Comment.presentation_id c with
      | Some k => Session_get db k
      | None => ret None
      end
  end.

(* ================================================================== *)
(** ** Pydantic schemas

    A create contract holds what the client supplies, a read contract what
    a response shows.  Fields come in declaration order, those of the base
    class first.  [model_validate] is the validation [from_attributes]
    allows, reading the attributes of a mapped instance; [model_dump] is
    the JSON document of a model. *)

Definition lift {H A} (r : result A) : M H A := fun s => (s, r).

Fixpoint traverse {H A B} (f : A -> M H B) (l : list A) : M H (list B) :=
  match l with
  | [] => ret []
  | a :: l' => b <- f a ;; bs <- traverse f l' ;; ret (b :: bs)
  end.

Definition required {A} (o : option A) : result A :=
  match o with
  | Some a => Ok a
  | None => Raise ResponseValidationError
  end.

Definition map_result {A B} (f : A -> B) (r : result A) : result B :=
  match r with
  | Ok a => Ok (f a)
  | Raise e => Raise e
  end.

Module RoleCreate.
Record t := mk { name : string }.
Definition model_dump (m : t) : list (string * json) :=
  [("name", JStr (name m))].
End RoleCreate.

Module RoleRead.
Record t := mk { name : string; id : Z }.
Definition model_validate (o : Role.t) : result t :=
  map_result (mk (Role.name o)) (required (Role.id o)).
Definition model_dump (m : t) : json :=
  JObj [("name", JStr (name m)); ("id", JInt (id m))].
End RoleRead.

Module UserCreate.
Record t := mk
  { name : string;
    email : string;
    photo : option string;
    role_id : Z;
    password : string }.
Definition model_dump (m : t) : list (string * json) :=
  [("name", JStr (name m)); ("email", JStr (email m));
   ("photo", opt_json JStr (photo m)); ("role_id", JInt (role_id m));
   ("password", JStr (password m))].
End UserCreate.

Module UserRead.
Record t := mk
  { name : string;
    email : string;
    photo : option string;
    role_id : Z;
    id : Z }.
Definition model_validate (o : User.t) : result t :=
  map_result (mk (User.name o) (User.email o) (User.photo o) (User.role_id o))
             (required (User.id o)).
Definition model_dump (m : t) : json :=
  JObj [("name", JStr (name m)); ("email", JStr (email m));
        ("photo", opt_json JStr (photo m)); ("role_id", JInt (role_id m));
        ("id", JInt (id m))].
End UserRead.

Module MusicGenderCreate.
Record t := mk { name : string }.
Definition model_dump (m : t) : list (string * json) :=
  [("name", JStr (name m))].
End MusicGenderCreate.

Module MusicGenderRead.
Record t := mk { name : string; id : Z }.
Definition model_validate (o : MusicGender.t) : result t :=
  map_result (mk (MusicGender.name o)) (required (MusicGender.id o)).
Definition model_dump (m : t) : json :=
  JObj [("name", JStr (name m)); ("id", JInt (id m))].
End MusicGenderRead.

Module ArtistCreate.
Record t := mk { name : string; photo : string }.
Definition model_dump (m : t) : list (string * json) :=
  [("name", JStr (name m)); ("photo", JStr (photo m))].
End ArtistCreate.

Module ArtistRead.
Record t := mk { name : string; photo : string; id : Z }.
Definition model_validate (o : Artist.t) : result t :=
  map_result (mk (Artist.name o) (Artist.photo o)) (required (Artist.id o)).
Definition model_dump (m : t) : json :=
  JObj [("name", JStr (name m)); ("photo", JStr (photo m));
        ("id", JInt (id m))].
End ArtistRead.

Module EventCreate.
Record t := mk { name : option string; logo : option string; price : Z }.
Definition model_dump (m : t) : list (string * json) :=
  [("name", opt_json JStr (name m)); ("logo", opt_json JStr (logo m));
   ("price", JInt (price m))].
End EventCreate.

Module EventRead.
Record t := mk
  { name : option string; logo : option string; price : Z; id : Z }.
Definition model_validate (o : Event.t) : result t :=
  map_result (mk (Event.name o) (Event.logo o) (Event.price o))
             (required (Event.id o)).
Definition model_dump (m : t) : json :=
  JObj [("name", opt_json JStr (name m)); ("logo", opt_json JStr (logo m));
        ("price", JInt (price m)); ("id", JInt (id m))].
End EventRead.

Module PresentationCreate.
Record t := mk
  { event_id : Z;
    date_start : datetime;
    date_end : option datetime;
    flyer : string }.
Definition model_dump (m : t) : list (string * json) :=
  [("event_id", JInt (event_id m)); ("date_start", JDatetime (date_start m));
   ("date_end", opt_json JDatetime (date_end m)); ("flyer", JStr (flyer m))].
End PresentationCreate.

Module PresentationRead.
Record t := mk
  { event_id : Z;
    date_start : datetime;
    date_end : option datetime;
    flyer : string;
    id : Z }.
Definition model_validate (o : Presentation.t) : result t :=
  map_result (mk (Presentation.event_id o) (Presentation.date_start o)
                 (Presentation.date_end o) (Presentation.flyer o))
             (required (Presentation.id o)).
Definition model_dump (m : t) : json :=
  JObj [("event_id", JInt (event_id m));
        ("date_start", JDatetime (date_start m));
        ("date_end", opt_json JDatetime (date_end m));
        ("flyer", JStr (flyer m)); ("id", JInt (id m))].
End PresentationRead.

Module TicketCreate.
Record t := mk { user_id : Z; presentation_id : Z }.
Definition model_dump (m : t) : list (string * json) :=
  [("user_id", JInt (user_id m));
   ("presentation_id", JInt (presentation_id m))].
End TicketCreate.

Module TicketRead.
Record t := mk { user_id : Z; presentation_id : Z; id : Z }.
Definition model_validate (o : Ticket.t) : result t :=
  map_result (mk (Ticket.user_id o) (Ticket.presentation_id o))
             (required (Ticket.id o)).
Definition model_dump (m : t) : json :=
  JObj [("user_id", JInt (user_id m));
        ("presentation_id", JInt (presentation_id m)); ("id", JInt (id m))].
End TicketRead.

Module CommentCreate.
Record t := mk
  { message : string;
    presentation_id : option Z;
    user_id : option Z }.
Definition model_dump (m : t) : list (string * json) :=
  [("message", JStr (message m));
   ("presentation_id", opt_json JInt (presentation_id m));
   ("user_id", opt_json JInt (user_id m))].
End CommentCreate.

Module CommentRead.
Record t := mk
  { id : Z;
    message : string;
    created_at : datetime;
    user : option UserRead.t;
    presentation : option PresentationRead.t }.

Definition nested {A B} (f : A -> result B) (o : option A)
  : result (option B) :=
  match o with
  | Some a => map_result Some (f a)
  | None => Ok None
  end.

(** The attributes are read in field order; [user] and [presentation]
    are relationship attributes, read through the session. *)
Definition model_validate {H} (db : Session) (o : Comment.t) : M H t :=
  i <- lift (required (Comment.id o)) ;;
  u <- Comment_user db o ;;
  u' <- lift (nested UserRead.model_validate u) ;;
  p <- Comment_presentation db o ;;
  p' <- lift (nested PresentationRead.model_validate p) ;;
  ret (mk i (Comment.message o) (Comment.created_at o) u' p').

Definition model_dump (m : t) : json :=
  JObj [("id", JInt (id m)); ("message", JStr (message m));
        ("created_at", JDatetime (created_at m));
        ("user", opt_json UserRead.model_dump (user m));
        ("presentation",
         opt_json PresentationRead.model_dump (presentation m))].
End CommentRead.

(* ================================================================== *)
(** ** FastAPI: responses, routes and the session dependency *)

Record response : Type := mkResponse
  { status : Z;
    body : json }.

(** [response_model=T]: the returned object is validated against [T] and
    dumped. *)
Definition response_model {H A T} (validate : A -> result T)
    (dump : T -> json) (raw : A) : M H json :=
  lift (map_result dump (validate raw)).

(** A route: run the endpoint function, serialise what it returns, answer
    with the status code of the decorator. *)
Definition route {H A} (status_code : Z) (serialize : A -> M H json)
    (endpoint : M H A) : M H response :=
  raw <- endpoint ;;
  content <- serialize raw ;;
  ret {| status := status_code; body := content |}.

(** An [HTTPException] is answered with its status code and detail; any
    other exception is not handled and answered with a bare 500. *)
Definition exception_response (e : exn) : response :=
  match e with
  | HTTPException status_code detail =>
      {| status := status_code; body := JObj [("detail", JStr detail)] |}
  | _ => {| status := 500; body := JStr "Internal Server Error" |}
  end.

Definition HTTP_200_OK : Z := 200.
Definition HTTP_201_CREATED : Z := 201.

(** [get_db]: the generator dependency.  What depends on it runs at the
    [yield]; the [finally] closes the session however that ends. *)
Definition get_db {H A} (dependant : Session -> M H A) : M H A :=
  db <- SessionLocal ;;
  try_finally (dependant db) (Session_close db).

(* ================================================================== *)
(** ** Endpoints *)

Definition ping {H} : M H string := ret "pong".

Definition hello {H} : M H string := ret "Hello world from FastAPI".

(** *** Role *)

Definition list_roles (db : Session) : M Role.t (list Role.t) :=
  Session_query_all db [].

Definition create_role (role : RoleCreate.t) (db : Session)
  : M Role.t Role.t :=
  now <- utcnow ;;
  db_role <- new (Role.mk None now (RoleCreate.name role)) ;;
  Session_add db db_role ;;
  Session_commit db ;;
  Session_refresh db db_role ;;
  deref db_role.

(** *** User *)

Definition list_users (db : Session) : M User.t (list User.t) :=
  Session_query_all db [].

Definition get_user (user_id : Z) (db : Session) : M User.t User.t :=
  user <- Session_get db user_id ;;
  match user with
  | None => raise (HTTPException 404 "User not found")
  | Some user => ret user
  end.

Definition create_user (user : UserCreate.t) (db : Session)
  : M User.t User.t :=
  now <- utcnow ;;
  db_user <- new (User.mk None now (UserCreate.name user)
                          (UserCreate.email user) (UserCreate.password user)
                          (UserCreate.role_id user) (UserCreate.photo user)) ;;
  Session_add db db_user ;;
  Session_commit db ;;
  Session_refresh db db_user ;;
  deref db_user.

(** *** Music gender *)

Definition list_music_genders (db : Session)
  : M MusicGender.t (list MusicGender.t) :=
  Session_query_all db [].

Definition create_music_gender (gender : MusicGenderCreate.t) (db : Session)
  : M MusicGender.t MusicGender.t :=
  now <- utcnow ;;
  db_gender <- new (MusicGender.mk None now (MusicGenderCreate.name gender)) ;;
  Session_add db db_gender ;;
  Session_commit db ;;
  Session_refresh db db_gender ;;
  deref db_gender.

(** *** Artist *)

Definition list_artists (db : Session) : M Artist.t (list Artist.t) :=
  Session_query_all db [].

Definition get_artist (artist_id : Z) (db : Session) : M Artist.t Artist.t :=
  artist <- Session_get db artist_id ;;
  match artist with
  | None => raise (HTTPException 404 "Artist not found")
  | Some artist => ret artist
  end.

Definition create_artist (artist : ArtistCreate.t) (db : Session)
  : M Artist.t Artist.t :=
  now <- utcnow ;;
  db_artist <- new (Artist.mk None now (ArtistCreate.name artist)
                              (ArtistCreate.photo artist)) ;;
  Session_add db db_artist ;;
  Session_commit db ;;
  Session_refresh db db_artist ;;
  deref db_artist.

(** *** Event *)

Definition list_events (db : Session) : M Event.t (list Event.t) :=
  Session_query_all db [].

Definition get_event (event_id : Z) (db : Session) : M Event.t Event.t :=
  event <- Session_get db event_id ;;
  match event with
  | None => raise (HTTPException 404 "Event not found")
  | Some event => ret event
  end.

Definition create_event (event : EventCreate.t) (db : Session)
  : M Event.t Event.t :=
  now <- utcnow ;;
  db_event <- new (Event.mk None now (EventCreate.name event)
                            (EventCreate.logo event)
                            (EventCreate.price event)) ;;
  Session_add db db_event ;;
  Session_commit db ;;
  Session_refresh db db_event ;;
  deref db_event.

(** *** Presentation *)

Definition list_presentations (db : Session)
  : M Presentation.t (list Presentation.t) :=
  Session_query_all db [].

Definition get_presentation (presentation_id : Z) (db : Session)
  : M Presentation.t Presentation.t :=
  pres <- Session_get db presentation_id ;;
  match pres with
  | None => raise (HTTPException 404 "Presentation not found")
  | Some pres => ret pres
  end.

Definition create_presentation (presentation : PresentationCreate.t)
    (db : Session) : M Presentation.t Presentation.t :=
  now <- utcnow ;;
  db_pres <- new (Presentation.mk None now
                    (PresentationCreate.event_id presentation)
                    (PresentationCreate.date_start presentation)
                    (PresentationCreate.date_end presentation)
                    (PresentationCreate.flyer presentation)) ;;
  Session_add db db_pres ;;
  Session_commit db ;;
  Session_refresh db db_pres ;;
  deref db_pres.

(** *** Ticket *)

Definition list_tickets (db : Session) : M Ticket.t (list Ticket.t) :=
  Session_query_all db [].

Definition create_ticket (ticket : TicketCreate.t) (db : Session)
  : M Ticket.t Ticket.t :=
  now <- utcnow ;;
  db_ticket <- new (Ticket.mk None now (TicketCreate.user_id ticket)
                              (TicketCreate.presentation_id ticket)) ;;
  Session_add db db_ticket ;;
  Session_commit db ;;
  Session_refresh db db_ticket ;;
  deref db_ticket.

(** *** Comment *)

Definition list_comments (db : Session) : M Comment.t (list Comment.t) :=
  comments <- Session_query_all db [joinedload_user; joinedload_presentation] ;;
  ret comments.

Definition create_comment (comment : CommentCreate.t) (db : Session)
  : M Comment.t Comment.t :=
  now <- utcnow ;;
  db_comment <- new (Comment.mk None now (CommentCreate.message comment)
                                (CommentCreate.presentation_id comment)
                                (CommentCreate.user_id comment)
                                Unloaded Unloaded) ;;
  Session_add db db_comment ;;
  Session_commit db ;;
  Session_refresh db db_comment ;;
  deref db_comment.

(* ================================================================== *)
(** ** The application: the routing table *)

Inductive request : Type :=
| GET_ping
| GET_root
| GET_roles
| POST_roles (role : RoleCreate.t)
| GET_users
| GET_users_id (user_id : Z)
| POST_users (user : UserCreate.t)
| GET_genders
| POST_genders (gender : MusicGenderCreate.t)
| GET_artists
| GET_artists_id (artist_id : Z)
| POST_artists (artist : ArtistCreate.t)
| GET_events
| GET_events_id (event_id : Z)
| POST_events (event : EventCreate.t)
| GET_presentations
| GET_presentations_id (presentation_id : Z)
| POST_presentations (presentation : PresentationCreate.t)
| GET_tickets
| POST_tickets (ticket : TicketCreate.t)
| GET_comments
| POST_comments (comment : CommentCreate.t).

Definition RoleRead_ {H} : Role.t -> M H json :=
  response_model RoleRead.model_validate RoleRead.model_dump.
Definition UserRead_ {H} : User.t -> M H json :=
  response_model UserRead.model_validate UserRead.model_dump.
Definition MusicGenderRead_ {H} : MusicGender.t -> M H json :=
  response_model MusicGenderRead.model_validate MusicGenderRead.model_dump.
Definition ArtistRead_ {H} : Artist.t -> M H json :=
  response_model ArtistRead.model_validate ArtistRead.model_dump.
Definition EventRead_ {H} : Event.t -> M H json :=
  response_model EventRead.model_validate EventRead.model_dump.
Definition PresentationRead_ {H} : Presentation.t -> M H json :=
  response_model PresentationRead.model_validate PresentationRead.model_dump.
Definition TicketRead_ {H} : Ticket.t -> M H json :=
  response_model TicketRead.model_validate TicketRead.model_dump.
Definition CommentRead_ {H} (db : Session) (raw : Comment.t) : M H json :=
  m <- CommentRead.model_validate db raw ;;
  ret (CommentRead.model_dump m).

(** [response_model=List[T]] *)
Definition List {H A} (item : A -> M H json) (raw : list A) : M H json :=
  items <- traverse item raw ;;
  ret (JArr items).

Definition plain {H} (raw : string) : M H json := ret (JStr raw).

(** A request is handled in a state of its own: the clock as the server
    reads it, an empty heap, nothing pending.  What is left of it when the
    response leaves is the world. *)
Definition run {H} (now : datetime) (m : M H response) (w : World)
  : World * response :=
  match m {| world := w; clock := now; heap := []; pending := [] |} with
  | (s, Ok r) => (world s, r)
  | (s, Raise e) => (world s, exception_response e)
  end.

(** The decorators of [main.py], one line per route.  A route whose
    function takes [db: Session = Depends(get_db)] runs inside [get_db]. *)
Definition serve (now : datetime) (req : request) : World -> World * response :=
  match req with
  | GET_ping =>
      run now (H := unit) (route HTTP_200_OK plain ping)
  | GET_root =>
      run now (H := unit) (route HTTP_200_OK plain hello)
  | GET_roles =>
      run now (get_db (fun db =>
        route HTTP_200_OK (List RoleRead_) (list_roles db)))
  | POST_roles role =>
      run now (get_db (fun db =>
        route HTTP_201_CREATED RoleRead_ (create_role role db)))
  | GET_users =>
      run now (get_db (fun db =>
        route HTTP_200_OK (List UserRead_) (list_users db)))
  | GET_users_id user_id =>
      run now (get_db (fun db =>
        route HTTP_200_OK UserRead_ (get_user user_id db)))
  | POST_users user =>
      run now (get_db (fun db =>
        route HTTP_201_CREATED UserRead_ (create_user user db)))
  | GET_genders =>
      run now (get_db (fun db =>
        route HTTP_200_OK (List MusicGenderRead_) (list_music_genders db)))
  | POST_genders gender =>
      run now (get_db (fun db =>
        route HTTP_201_CREATED MusicGenderRead_
              (create_music_gender gender db)))
  | GET_artists =>
      run now (get_db (fun db =>
        route HTTP_200_OK (List ArtistRead_) (list_artists db)))
  | GET_artists_id artist_id =>
      run now (get_db (fun db =>
        route HTTP_200_OK ArtistRead_ (get_artist artist_id db)))
  | POST_artists artist =>
      run now (get_db (fun db =>
        route HTTP_201_CREATED ArtistRead_ (create_artist artist db)))
  | GET_events =>
      run now (get_db (fun db =>
        route HTTP_200_OK (List EventRead_) (list_events db)))
  | GET_events_id event_id =>
      run now (get_db (fun db =>
        route HTTP_200_OK EventRead_ (get_event event_id db)))
  | POST_events event =>
      run now (get_db (fun db =>
        route HTTP_201_CREATED EventRead_ (create_event event db)))
  | GET_presentations =>
      run now (get_db (fun db =>
        route HTTP_200_OK (List PresentationRead_) (list_presentations db)))
  | GET_presentations_id presentation_id =>
      run now (get_db (fun db =>
        route HTTP_200_OK PresentationRead_
              (get_presentation presentation_id db)))
  | POST_presentations presentation =>
      run now (get_db (fun db =>
        route HTTP_201_CREATED PresentationRead_
              (create_presentation presentation db)))
  | GET_tickets =>
      run now (get_db (fun db =>
        route HTTP_200_OK (List TicketRead_) (list_tickets db)))
  | POST_tickets ticket =>
      run now (get_db (fun db =>
        route HTTP_201_CREATED TicketRead_ (create_ticket ticket db)))
  | GET_comments =>
      run now (get_db (fun db =>
        route HTTP_200_OK (List (CommentRead_ db)) (list_comments db)))
  | POST_comments comment =>
      run now (get_db (fun db =>
        route HTTP_201_CREATED (CommentRead_ db) (create_comment comment db)))
  end.

Definition empty_world : World :=
  {| database := empty_db; live := []; next_sid := 0 |}.

(* ================================================================== *)
(** * Specification vocabulary

    Definitions the statements below are written with.  None of them is
    part of the program; each is related to the program by a lemma. *)

(** ** The mapping *)

(** What every mapping of [main.py] satisfies: the primary key written is
    the primary key read, a table put in the database is the table found
    there, and rolling back a statement that changed no row changes
    nothing. *)
Class MappedLaws (R : Type) `{Mapped R} : Prop :=
  { pk_set_pk : forall k (r : R), pk (set_pk k r) = Some k;
    get_set_table : forall (t : table R) d, get_table (set_table t d) = t;
    rollback_same_rows : forall d n,
      rollback d (set_table {| rows := rows (get_table d); seq := n |} d)
      = set_table {| rows := rows (get_table d); seq := n |} d }.
Arguments MappedLaws R {_}.


(** ** What a request does, in closed form *)

(** The world a request that went through [get_db] leaves: the session it
    opened is closed again, and the database is [d]. *)
Definition after_session (w : World) (d : DB) : World :=
  {| database := d;
     live := filter (fun i => negb (Nat.eqb i (next_sid w))) (live w);
     next_sid := S (next_sid w) |}.

Definition answer (status_code : Z) (content : result json) : response :=
  match content with
  | Ok j => {| status := status_code; body := j |}
  | Raise e => exception_response e
  end.

(** A serialiser that only reads the database. *)
Definition reads {H A} (ser : Session -> A -> M H json)
    (f : DB -> A -> result json) : Prop :=
  forall db raw s, ser db raw s = (s, f (database (world s)) raw).

(** What a create endpoint comes to: the instance [r] built from the
    payload is refused for its width, refused by a constraint (the sequence
    value is spent), or stored under the next value of the sequence and
    answered with the stored row as [item] shows it. *)
Definition create_spec {R} `{Mapped R} (status_code : Z) (r : R)
    (item : DB -> Z * R -> json) (w : World) : World * response :=
  let d := database w in
  let t := get_table d in
  if negb (in_range r) then
    (after_session w d, exception_response DataError)
  else if has_pk (seq t) (rows t) || negb (constraints d r) then
    (after_session w (set_table {| rows := rows t; seq := seq t + 1 |} d),
     exception_response IntegrityError)
  else
    let row := set_pk (seq t) r in
    let d' := set_table {| rows := rows t ++ [(seq t, row)];
                           seq := seq t + 1 |} d in
    (after_session w d',
     {| status := status_code; body := item d' (seq t, row) |}).

(** What an endpoint that only reads comes to. *)
Definition read_spec (status_code : Z) (content : DB -> result json)
    (w : World) : World * response :=
  (after_session w (database w), answer status_code (content (database w))).

Fixpoint traverse_r {A B} (f : A -> result B) (l : list A)
  : result (list B) :=
  match l with
  | [] => Ok []
  | a :: l' =>
      match f a with
      | Ok b => map_result (cons b) (traverse_r f l')
      | Raise e => Raise e
      end
  end.


(** The body every create endpoint of [main.py] has, for the instance
    [o at_] it builds. *)
Definition create_endpoint {R} `{Mapped R} (o : datetime -> R) (db : Session)
  : M R R :=
  at_ <- utcnow ;;
  obj <- new (o at_) ;;
  Session_add db obj ;;
  Session_commit db ;;
  Session_refresh db obj ;;
  deref obj.

(** ** What a stored row looks like in a response *)

Definition Role_item (p : Z * Role.t) : json :=
  JObj [("name", JStr (Role.name (snd p))); ("id", JInt (fst p))].

Definition User_item (p : Z * User.t) : json :=
  JObj [("name", JStr (User.name (snd p)));
        ("email", JStr (User.email (snd p)));
        ("photo", opt_json JStr (User.photo (snd p)));
        ("role_id", JInt (User.role_id (snd p)));
        ("id", JInt (fst p))].

Definition MusicGender_item (p : Z * MusicGender.t) : json :=
  JObj [("name", JStr (MusicGender.name (snd p))); ("id", JInt (fst p))].

Definition Artist_item (p : Z * Artist.t) : json :=
  JObj [("name", JStr (Artist.name (snd p)));
        ("photo", JStr (Artist.photo (snd p)));
        ("id", JInt (fst p))].

Definition Event_item (p : Z * Event.t) : json :=
  JObj [("name", opt_json JStr (Event.name (snd p)));
        ("logo", opt_json JStr (Event.logo (snd p)));
        ("price", JInt (Event.price (snd p)));
        ("id", JInt (fst p))].

Definition Presentation_item (p : Z * Presentation.t) : json :=
  JObj [("event_id", JInt (Presentation.event_id (snd p)));
        ("date_start", JDatetime (Presentation.date_start (snd p)));
        ("date_end", opt_json JDatetime (Presentation.date_end (snd p)));
        ("flyer", JStr (Presentation.flyer (snd p)));
        ("id", JInt (fst p))].

Definition Ticket_item (p : Z * Ticket.t) : json :=
  JObj [("user_id", JInt (Ticket.user_id (snd p)));
        ("presentation_id", JInt (Ticket.presentation_id (snd p)));
        ("id", JInt (fst p))].

Definition lookup {R} (k : Z) (t : table R) : option (Z * R) :=
  find (fun p => Z.eqb (fst p) k) (rows t).

Definition user_of (d : DB) (c : Comment.t) : option (Z * User.t) :=
  match Comment.user_id c with
  | Some k => lookup k (tbl_User d)
  | None => None
  end.

Definition presentation_of (d : DB) (c : Comment.t)
  : option (Z * Presentation.t) :=
  match Comment.presentation_id c with
  | Some k => lookup k (tbl_Presentation d)
  | None => None
  end.

Definition Comment_item (d : DB) (p : Z * Comment.t) : json :=
  JObj [("id", JInt (fst p));
        ("message", JStr (Comment.message (snd p)));
        ("created_at", JDatetime (Comment.created_at (snd p)));
        ("user", opt_json User_item (user_of d (snd p)));
        ("presentation",
         opt_json Presentation_item (presentation_of d (snd p)))].

(** The serialisers as functions of the database. *)
Definition pure_model {A T} (validate : A -> result T) (dump : T -> json)
    (d : DB) (raw : A) : result json :=
  map_result dump (validate raw).


Definition rel_value {A} `{Mapped A} (d : DB) (r : rel A) (fk : option Z)
  : option A :=
  match r with
  | Loaded v => v
  | Unloaded =>
      match fk with
      | Some k => find_pk k (rows (get_table d))
      | None => None
      end
  end.

Definition CommentRead_r (d : DB) (o : Comment.t) : result json :=
  match required (Comment.id o) with
  | Raise e => Raise e
  | Ok i =>
      match CommentRead.nested UserRead.model_validate
              (rel_value d (Comment.user o) (Comment.user_id o)) with
      | Raise e => Raise e
      | Ok u =>
          match CommentRead.nested PresentationRead.model_validate
                  (rel_value d (Comment.presentation o)
                             (Comment.presentation_id o)) with
          | Raise e => Raise e
          | Ok p =>
              Ok (CommentRead.model_dump
                    (CommentRead.mk i (Comment.message o)
                                    (Comment.created_at o) u p))
          end
      end
  end.

(** ** The application in closed form *)

(** The entities that have endpoints. *)
Inductive entity : Type :=
| ERole | EUser | EMusicGender | EArtist
| EEvent | EPresentation | ETicket | EComment.

(** The rows of an entity as its list endpoint shows them. *)
Definition listing (e : entity) (d : DB) : list json :=
  match e with
  | ERole => map Role_item (rows (tbl_Role d))
  | EUser => map User_item (rows (tbl_User d))
  | EMusicGender => map MusicGender_item (rows (tbl_Music_Gender d))
  | EArtist => map Artist_item (rows (tbl_Artist d))
  | EEvent => map Event_item (rows (tbl_Event d))
  | EPresentation => map Presentation_item (rows (tbl_Presentation d))
  | ETicket => map Ticket_item (rows (tbl_Ticket d))
  | EComment => map (Comment_item d) (rows (tbl_Comment d))
  end.

Definition found {R} (item : Z * R -> json) (detail : string)
    (o : option (Z * R)) : result json :=
  match o with
  | Some p => Ok (item p)
  | None => Raise (HTTPException 404 detail)
  end.

Definition serve_spec (now : datetime) (req : request)
  : World -> World * response :=
  match req with
  | GET_ping => fun w => (w, {| status := 200; body := JStr "pong" |})
  | GET_root =>
      fun w => (w, {| status := 200;
                      body := JStr "Hello world from FastAPI" |})
  | GET_roles => read_spec 200 (fun d => Ok (JArr (listing ERole d)))
  | POST_roles role =>
      create_spec 201 (Role.mk None now (RoleCreate.name role))
                  (fun _ => Role_item)
  | GET_users => read_spec 200 (fun d => Ok (JArr (listing EUser d)))
  | GET_users_id user_id =>
      read_spec 200 (fun d =>
        found User_item "User not found" (lookup user_id (tbl_User d)))
  | POST_users user =>
      create_spec 201
        (User.mk None now (UserCreate.name user) (UserCreate.email user)
                 (UserCreate.password user) (UserCreate.role_id user)
                 (UserCreate.photo user))
        (fun _ => User_item)
  | GET_genders => read_spec 200 (fun d => Ok (JArr (listing EMusicGender d)))
  | POST_genders gender =>
      create_spec 201 (MusicGender.mk None now (MusicGenderCreate.name gender))
                  (fun _ => MusicGender_item)
  | GET_artists => read_spec 200 (fun d => Ok (JArr (listing EArtist d)))
  | GET_artists_id artist_id =>
      read_spec 200 (fun d =>
        found Artist_item "Artist not found" (lookup artist_id (tbl_Artist d)))
  | POST_artists artist =>
      create_spec 201
        (Artist.mk None now (ArtistCreate.name artist)
                   (ArtistCreate.photo artist))
        (fun _ => Artist_item)
  | GET_events => read_spec 200 (fun d => Ok (JArr (listing EEvent d)))
  | GET_events_id event_id =>
      read_spec 200 (fun d =>
        found Event_item "Event not found" (lookup event_id (tbl_Event d)))
  | POST_events event =>
      create_spec 201
        (Event.mk None now (EventCreate.name event) (EventCreate.logo event)
                  (EventCreate.price event))
        (fun _ => Event_item)
  | GET_presentations =>
      read_spec 200 (fun d => Ok (JArr (listing EPresentation d)))
  | GET_presentations_id presentation_id =>
      read_spec 200 (fun d =>
        found Presentation_item "Presentation not found"
              (lookup presentation_id (tbl_Presentation d)))
  | POST_presentations presentation =>
      create_spec 201
        (Presentation.mk None now
           (PresentationCreate.event_id presentation)
           (PresentationCreate.date_start presentation)
           (PresentationCreate.date_end presentation)
           (PresentationCreate.flyer presentation))
        (fun _ => Presentation_item)
  | GET_tickets => read_spec 200 (fun d => Ok (JArr (listing ETicket d)))
  | POST_tickets ticket =>
      create_spec 201
        (Ticket.mk None now (TicketCreate.user_id ticket)
                   (TicketCreate.presentation_id ticket))
        (fun _ => Ticket_item)
  | GET_comments => read_spec 200 (fun d => Ok (JArr (listing EComment d)))
  | POST_comments comment =>
      create_spec 201
        (Comment.mk None now (CommentCreate.message comment)
                    (CommentCreate.presentation_id comment)
                    (CommentCreate.user_id comment) Unloaded Unloaded)
        Comment_item
  end.


(** ** Requests and entities *)

(** The entity a request creates a row of. *)
Definition creates (req : request) : option entity :=
  match req with
  | POST_roles _ => Some ERole
  | POST_users _ => Some EUser
  | POST_genders _ => Some EMusicGender
  | POST_artists _ => Some EArtist
  | POST_events _ => Some EEvent
  | POST_presentations _ => Some EPresentation
  | POST_tickets _ => Some ETicket
  | POST_comments _ => Some EComment
  | _ => None
  end.

Definition list_request (e : entity) : request :=
  match e with
  | ERole => GET_roles
  | EUser => GET_users
  | EMusicGender => GET_genders
  | EArtist => GET_artists
  | EEvent => GET_events
  | EPresentation => GET_presentations
  | ETicket => GET_tickets
  | EComment => GET_comments
  end.

(** The fields of the body of a request, as its create contract names
    them. *)
Definition payload (req : request) : list (string * json) :=
  match req with
  | POST_roles role => RoleCreate.model_dump role
  | POST_users user => UserCreate.model_dump user
  | POST_genders gender => MusicGenderCreate.model_dump gender
  | POST_artists artist => ArtistCreate.model_dump artist
  | POST_events event => EventCreate.model_dump event
  | POST_presentations presentation =>
      PresentationCreate.model_dump presentation
  | POST_tickets ticket => TicketCreate.model_dump ticket
  | POST_comments comment => CommentCreate.model_dump comment
  | _ => []
  end.

(** The routes whose function depends on [get_db]: all but the two
    health checks. *)
Definition depends_on_get_db (req : request) : bool :=
  match req with
  | GET_ping | GET_root => false
  | _ => true
  end.

(** The next value of the sequence of an entity, its number of rows, and
    the primary key and creation time of each of its rows. *)
Definition next_id (e : entity) (d : DB) : Z :=
  match e with
  | ERole => seq (tbl_Role d)
  | EUser => seq (tbl_User d)
  | EMusicGender => seq (tbl_Music_Gender d)
  | EArtist => seq (tbl_Artist d)
  | EEvent => seq (tbl_Event d)
  | EPresentation => seq (tbl_Presentation d)
  | ETicket => seq (tbl_Ticket d)
  | EComment => seq (tbl_Comment d)
  end.

Definition size (e : entity) (d : DB) : nat :=
  match e with
  | ERole => List.length (rows (tbl_Role d))
  | EUser => List.length (rows (tbl_User d))
  | EMusicGender => List.length (rows (tbl_Music_Gender d))
  | EArtist => List.length (rows (tbl_Artist d))
  | EEvent => List.length (rows (tbl_Event d))
  | EPresentation => List.length (rows (tbl_Presentation d))
  | ETicket => List.length (rows (tbl_Ticket d))
  | EComment => List.length (rows (tbl_Comment d))
  end.

Definition stamp {R} (created_at : R -> datetime) (p : Z * R)
  : Z * datetime :=
  (fst p, created_at (snd p)).

Definition stamps (e : entity) (d : DB) : list (Z * datetime) :=
  match e with
  | ERole => map (stamp Role.created_at) (rows (tbl_Role d))
  | EUser => map (stamp User.created_at) (rows (tbl_User d))
  | EMusicGender =>
      map (stamp MusicGender.created_at) (rows (tbl_Music_Gender d))
  | EArtist => map (stamp Artist.created_at) (rows (tbl_Artist d))
  | EEvent => map (stamp Event.created_at) (rows (tbl_Event d))
  | EPresentation =>
      map (stamp Presentation.created_at) (rows (tbl_Presentation d))
  | ETicket => map (stamp Ticket.created_at) (rows (tbl_Ticket d))
  | EComment => map (stamp Comment.created_at) (rows (tbl_Comment d))
  end.

(** ** Rows before and after *)

Definition prefix {A} (l l' : list A) : Prop := exists t, l' = l ++ t.

(** Every row of [d] is still in [d'], in its place and as it was. *)
Definition extends (d d' : DB) : Prop :=
  prefix (rows (tbl_Role d)) (rows (tbl_Role d'))
  /\ prefix (rows (tbl_User d)) (rows (tbl_User d'))
  /\ prefix (rows (tbl_Music_Gender d)) (rows (tbl_Music_Gender d'))
  /\ prefix (rows (tbl_Artist d)) (rows (tbl_Artist d'))
  /\ prefix (rows (tbl_Artist_Gender d)) (rows (tbl_Artist_Gender d'))
  /\ prefix (rows (tbl_Event d)) (rows (tbl_Event d'))
  /\ prefix (rows (tbl_Presentation d)) (rows (tbl_Presentation d'))
  /\ prefix (rows (tbl_Presentation_Artist d))
            (rows (tbl_Presentation_Artist d'))
  /\ prefix (rows (tbl_Ticket d)) (rows (tbl_Ticket d'))
  /\ prefix (rows (tbl_Comment d)) (rows (tbl_Comment d')).

Definition same_rows (d d' : DB) : Prop :=
  rows (tbl_Role d') = rows (tbl_Role d)
  /\ rows (tbl_User d') = rows (tbl_User d)
  /\ rows (tbl_Music_Gender d') = rows (tbl_Music_Gender d)
  /\ rows (tbl_Artist d') = rows (tbl_Artist d)
  /\ rows (tbl_Artist_Gender d') = rows (tbl_Artist_Gender d)
  /\ rows (tbl_Event d') = rows (tbl_Event d)
  /\ rows (tbl_Presentation d') = rows (tbl_Presentation d)
  /\ rows (tbl_Presentation_Artist d') = rows (tbl_Presentation_Artist d)
  /\ rows (tbl_Ticket d') = rows (tbl_Ticket d)
  /\ rows (tbl_Comment d') = rows (tbl_Comment d).

Definition total_rows (d : DB) : nat :=
  (List.length (rows (tbl_Role d)) + List.length (rows (tbl_User d))
   + List.length (rows (tbl_Music_Gender d))
   + List.length (rows (tbl_Artist d))
   + List.length (rows (tbl_Artist_Gender d))
   + List.length (rows (tbl_Event d))
   + List.length (rows (tbl_Presentation d))
   + List.length (rows (tbl_Presentation_Artist d))
   + List.length (rows (tbl_Ticket d))
   + List.length (rows (tbl_Comment d)))%nat.

(** ** Databases a sequence of requests can reach

    Every primary key of a table lies below the sequence of the table, and
    the foreign keys of every comment point at rows that exist. *)
Definition fresh {R} (t : table R) : bool :=
  forallb (fun p => Z.ltb (fst p) (seq t)) (rows t).

Definition wf_db (d : DB) : bool :=
  fresh (tbl_Role d) && fresh (tbl_User d) && fresh (tbl_Music_Gender d)
  && fresh (tbl_Artist d) && fresh (tbl_Event d)
  && fresh (tbl_Presentation d) && fresh (tbl_Ticket d)
  && fresh (tbl_Comment d)
  && forallb (fun p => constraints d (snd p)) (rows (tbl_Comment d)).

(** The foreign keys of a comment, against the rows of the two tables
    they point into. *)
Definition fk_ok (users : list (Z * User.t))
    (presentations : list (Z * Presentation.t)) (c : Comment.t) : bool :=
  opt_ok (fun k => has_pk k presentations) (Comment.presentation_id c)
  && opt_ok (fun k => has_pk k users) (Comment.user_id c).

Definition items (j : json) : list json :=
  match j with
  | JArr l => l
  | _ => []
  end.

(** ** Get by identifier *)

Inductive by_id : Type :=
| ById_User | ById_Artist | ById_Event | ById_Presentation.

Definition get_request (e : by_id) (ident : Z) : request :=
  match e with
  | ById_User => GET_users_id ident
  | ById_Artist => GET_artists_id ident
  | ById_Event => GET_events_id ident
  | ById_Presentation => GET_presentations_id ident
  end.

(** The row stored under an identifier, as the read contract shows it. *)
Definition stored (e : by_id) (ident : Z) (d : DB) : option json :=
  match e with
  | ById_User => option_map User_item (lookup ident (tbl_User d))
  | ById_Artist => option_map Artist_item (lookup ident (tbl_Artist d))
  | ById_Event => option_map Event_item (lookup ident (tbl_Event d))
  | ById_Presentation =>
      option_map Presentation_item (lookup ident (tbl_Presentation d))
  end.

Definition not_found (e : by_id) : response :=
  {| status := 404;
     body := JObj [("detail",
                    JStr match e with
                         | ById_User => "User not found"
                         | ById_Artist => "Artist not found"
                         | ById_Event => "Event not found"
                         | ById_Presentation => "Presentation not found"
                         end)] |}.

(** ** Unique names *)

(** The request is a POST /roles or a POST /genders whose name a stored
    row already has. *)
Definition duplicate_name (req : request) (d : DB) : bool :=
  match req with
  | POST_roles role =>
      existsb (fun p => String.eqb (Role.name (snd p)) (RoleCreate.name role))
              (rows (tbl_Role d))
  | POST_genders gender =>
      existsb (fun p => String.eqb (MusicGender.name (snd p))
                                   (MusicGenderCreate.name gender))
              (rows (tbl_Music_Gender d))
  | _ => false
  end.

(** ** What a create endpoint answers *)

Definition unused {R} (t : table R) : bool :=
  negb (has_pk (seq t) (rows t)).

(** The storage engine takes the row the request asks for: the next value
    of the sequence is not a primary key already, every integer fits its
    column, a unique name is not taken, every foreign key given points at
    a row. *)
Definition storage_accepts (req : request) (d : DB) : bool :=
  match req with
  | POST_roles role =>
      unused (tbl_Role d)
      && negb (existsb (fun p => String.eqb (Role.name (snd p))
                                            (RoleCreate.name role))
                       (rows (tbl_Role d)))
  | POST_users user =>
      unused (tbl_User d)
      && int64 (UserCreate.role_id user)
      && has_pk (UserCreate.role_id user) (rows (tbl_Role d))
  | POST_genders gender =>
      unused (tbl_Music_Gender d)
      && negb (existsb (fun p => String.eqb (MusicGender.name (snd p))
                                            (MusicGenderCreate.name gender))
                       (rows (tbl_Music_Gender d)))
  | POST_artists _ => unused (tbl_Artist d)
  | POST_events event =>
      unused (tbl_Event d) && int32 (EventCreate.price event)
  | POST_presentations presentation =>
      unused (tbl_Presentation d)
      && int64 (PresentationCreate.event_id presentation)
      && has_pk (PresentationCreate.event_id presentation)
                (rows (tbl_Event d))
  | POST_tickets ticket =>
      unused (tbl_Ticket d)
      && int64 (TicketCreate.user_id ticket)
      && int64 (TicketCreate.presentation_id ticket)
      && has_pk (TicketCreate.user_id ticket) (rows (tbl_User d))
      && has_pk (TicketCreate.presentation_id ticket)
                (rows (tbl_Presentation d))
  | POST_comments comment =>
      unused (tbl_Comment d)
      && opt_ok int64 (CommentCreate.presentation_id comment)
      && opt_ok int64 (CommentCreate.user_id comment)
      && opt_ok (fun k => has_pk k (rows (tbl_Presentation d)))
                (CommentCreate.presentation_id comment)
      && opt_ok (fun k => has_pk k (rows (tbl_User d)))
                (CommentCreate.user_id comment)
  | _ => false
  end.

Definition without (k : string) (fields : list (string * json))
  : list (string * json) :=
  filter (fun f => negb (String.eqb (fst f) k)) fields.

Definition row_at {R} (t : table R) (o : option Z) : option (Z * R) :=
  match o with
  | Some k => lookup k t
  | None => None
  end.

(** The body of the 201 of a create endpoint.  For Role, MusicGender,
    Artist, Event, Presentation and Ticket: the fields supplied, then the
    [id].  For User: the fields supplied but the password, then the [id].
    For Comment: the [id], the message, the creation time, and the user
    and the presentation the foreign keys point at. *)
Definition expected_body (now : datetime) (req : request) (d : DB) : json :=
  match req with
  | POST_users _ =>
      JObj (without "password" (payload req)
            ++ [("id", JInt (next_id EUser d))])
  | POST_comments comment =>
      JObj [("id", JInt (next_id EComment d));
            ("message", JStr (CommentCreate.message comment));
            ("created_at", JDatetime now);
            ("user",
             opt_json User_item
               (row_at (tbl_User d) (CommentCreate.user_id comment)));
            ("presentation",
             opt_json Presentation_item
               (row_at (tbl_Presentation d)
                       (CommentCreate.presentation_id comment)))]
  | _ =>
      match creates req with
      | Some e => JObj (payload req ++ [("id", JInt (next_id e d))])
      | None => JNull
      end
  end.

(** C1 as the specification words it: 201, every field supplied shown
    with its value, an [id], and a creation timestamp. *)
Definition echoes_input_with_id_and_timestamp (now : datetime)
    (req : request) (w : World) : Prop :=
  let r := snd (serve now req w) in
  status r = 201
  /\ Forall (fun f => field (fst f) (body r) = Some (snd f)) (payload req)
  /\ (exists i, field "id" (body r) = Some (JInt i))
  /\ (exists t, field "created_at" (body r) = Some (JDatetime t)).

(** ** The Comment read contract *)

Definition CommentRead_keys : list string :=
  ["id"; "message"; "created_at"; "user"; "presentation"].

(** ** Sessions *)

(** C8 as the specification words it, in part: the request opens a
    session. *)
Definition acquires_session (now : datetime) (req : request) (w : World)
  : Prop :=
  next_sid (fst (serve now req w)) = S (next_sid w).

(** ** Worlds and payloads for the examples *)

Definition admin : RoleCreate.t := RoleCreate.mk "Admin".

Definition alice : UserCreate.t :=
  UserCreate.mk "A" "a@b.com" None 1 "x".

Definition world_with_role : World :=
  fst (serve 100 (POST_roles admin) empty_world).

Definition world_with_user : World :=
  fst (serve 101 (POST_users alice) world_with_role).

(** ** Sequences of requests *)

Definition entity_eqb (e e' : entity) : bool :=
  match e, e' with
  | ERole, ERole | EUser, EUser | EMusicGender, EMusicGender
  | EArtist, EArtist | EEvent, EEvent | EPresentation, EPresentation
  | ETicket, ETicket | EComment, EComment => true
  | _, _ => false
  end.

(** The request is answered 201 by the create endpoint of [e]. *)
Definition created_by (e : entity) (req : request) (r : response) : bool :=
  match creates req with
  | Some e' => entity_eqb e e' && Z.eqb (status r) 201
  | None => false
  end.

(** The world after a sequence of requests, each with the reading of the
    clock at its handling. *)
Fixpoint run_requests (tr : list (datetime * request)) (w : World) : World :=
  match tr with
  | [] => w
  | (now, req) :: tr' => run_requests tr' (fst (serve now req w))
  end.

(** The bodies of the 201 answers the create endpoint of [e] gave along
    a sequence of requests, in order. *)
Fixpoint created (e : entity) (tr : list (datetime * request)) (w : World)
  : list json :=
  match tr with
  | [] => []
  | (now, req) :: tr' =>
      (if created_by e req (snd (serve now req w))
       then [body (snd (serve now req w))]
       else [])
      ++ created e tr' (fst (serve now req w))
  end.

(** The keys of the read contract of an entity. *)
Definition read_keys (e : entity) : list string :=
  match e with
  | ERole | EMusicGender => ["name"; "id"]
  | EUser => ["name"; "email"; "photo"; "role_id"; "id"]
  | EArtist => ["name"; "photo"; "id"]
  | EEvent => ["name"; "logo"; "price"; "id"]
  | EPresentation => ["event_id"; "date_start"; "date_end"; "flyer"; "id"]
  | ETicket => ["user_id"; "presentation_id"; "id"]
  | EComment => CommentRead_keys
  end.

(** ** States that differ only in passwords *)

Definition blank (u : User.t) : User.t :=
  User.mk (User.id u) (User.created_at u) (User.name u) (User.email u)
          "" (User.role_id u) (User.photo u).

Definition blank_row (p : Z * User.t) : Z * User.t := (fst p, blank (snd p)).

(** The database with every stored password blanked. *)
Definition erase_db (d : DB) : DB :=
  {| tbl_Role := tbl_Role d;
     tbl_User := {| rows := map blank_row (rows (tbl_User d));
                    seq := seq (tbl_User d) |};
     tbl_Music_Gender := tbl_Music_Gender d;
     tbl_Artist := tbl_Artist d;
     tbl_Artist_Gender := tbl_Artist_Gender d;
     tbl_Event := tbl_Event d;
     tbl_Presentation := tbl_Presentation d;
     tbl_Presentation_Artist := tbl_Presentation_Artist d;
     tbl_Ticket := tbl_Ticket d;
     tbl_Comment := tbl_Comment d |}.

Definition erase_world (w : World) : World :=
  {| database := erase_db (database w);
     live := live w;
     next_sid := next_sid w |}.

(** The request with the password it supplies, if any, blanked. *)
Definition erase_request (req : request) : request :=
  match req with
  | POST_users user =>
      POST_users (UserCreate.mk (UserCreate.name user) (UserCreate.email user)
                                (UserCreate.photo user)
                                (UserCreate.role_id user) "")
  | _ => req
  end.

Definition alice' : UserCreate.t :=
  UserCreate.mk "A" "a@b.com" None 1 "y".

Definition world_with_user' : World :=
  fst (serve 101 (POST_users alice') world_with_role).

(* ================================================================== *)
(** * More of [main.py]: the connection string *)

From Stdlib Require Import Ascii.

(** [os.getenv(key)] on the environment [load_dotenv()] has filled:
    the value of the variable, or [None] when it is not set. *)
Fixpoint getenv (environ : list (string * string)) (key : string)
  : option string :=
  match environ with
  | [] => None
  | (k, v) :: rest => if String.eqb k key then Some v else getenv rest key
  end.

(** What an f-string puts for a value: the text itself, and [None] for
    [None]. *)
Definition format (value : option string) : string :=
  match value with
  | Some s => s
  | None => "None"
  end.

Definition USER (environ : list (string * string)) := getenv environ "user".
Definition PASSWORD (environ : list (string * string)) :=
  getenv environ "password".
Definition HOST (environ : list (string * string)) := getenv environ "host".
Definition PORT (environ : list (string * string)) := getenv environ "port".
Definition DBNAME (environ : list (string * string)) :=
  getenv environ "dbname".

Definition DATABASE_URL (environ : list (string * string)) : string :=
  ("postgresql+psycopg2://" ++ format (USER environ) ++ ":"
   ++ format (PASSWORD environ) ++ "@" ++ format (HOST environ) ++ ":"
   ++ format (PORT environ) ++ "/" ++ format (DBNAME environ))%string.

Fixpoint occurs (c : Ascii.ascii) (s : string) : bool :=
  match s with
  | EmptyString => false
  | String c' s' => Ascii.eqb c c' || occurs c s'
  end.

(** The five settings as the connection string shows them. *)
Definition settings (environ : list (string * string)) : list string :=
  [format (USER environ); format (PASSWORD environ); format (HOST environ);
   format (PORT environ); format (DBNAME environ)].

(** No setting holds the character that ends it in the connection
    string. *)
Definition delimited (environ : list (string * string)) : bool :=
  negb (occurs ":"%char (format (USER environ)))
  && negb (occurs "@"%char (format (PASSWORD environ)))
  && negb (occurs ":"%char (format (HOST environ)))
  && negb (occurs "/"%char (format (PORT environ))).

(* ================================================================== *)
(** * More vocabulary *)

(** The primary keys of the rows of an entity, in the order of the rows. *)
Definition stored_ids (e : entity) (d : DB) : list Z :=
  match e with
  | ERole => map fst (rows (tbl_Role d))
  | EUser => map fst (rows (tbl_User d))
  | EMusicGender => map fst (rows (tbl_Music_Gender d))
  | EArtist => map fst (rows (tbl_Artist d))
  | EEvent => map fst (rows (tbl_Event d))
  | EPresentation => map fst (rows (tbl_Presentation d))
  | ETicket => map fst (rows (tbl_Ticket d))
  | EComment => map fst (rows (tbl_Comment d))
  end.

(** Two entities with different tables, neither of which has a foreign
    key into the other. *)
Definition unrelated (e1 e2 : entity) : bool :=
  match e1, e2 with
  | ERole, (EMusicGender | EArtist | EEvent | EPresentation | ETicket
            | EComment)
  | EUser, (EMusicGender | EArtist | EEvent | EPresentation)
  | EMusicGender, (ERole | EUser | EArtist | EEvent | EPresentation
                   | ETicket | EComment)
  | EArtist, (ERole | EUser | EMusicGender | EEvent | EPresentation
              | ETicket | EComment)
  | EEvent, (ERole | EUser | EMusicGender | EArtist | ETicket | EComment)
  | EPresentation, (ERole | EUser | EMusicGender | EArtist)
  | ETicket, (ERole | EMusicGender | EArtist | EEvent | EComment)
  | EComment, (ERole | EMusicGender | EArtist | EEvent | ETicket) => true
  | _, _ => false
  end.

(** What the list endpoint of an entity shows. *)
Definition shown (e : entity) (now : datetime) (w : World) : list json :=
  items (body (snd (serve now (list_request e) w))).

(** The item has the integer [k] as its [id]. *)
Definition has_id (k : Z) (item : json) : bool :=
  match field "id" item with
  | Some (JInt j) => Z.eqb j k
  | _ => false
  end.

(** [child] has under [fk] the integer [parent] has under [pk]. *)
Definition refers (fk : string) (child : json) (pk : string)
    (parent : json) : Prop :=
  exists k, field fk child = Some (JInt k) /\ field pk parent = Some (JInt k).

Definition entity_of (e : by_id) : entity :=
  match e with
  | ById_User => EUser
  | ById_Artist => EArtist
  | ById_Event => EEvent
  | ById_Presentation => EPresentation
  end.

(** The request gives a foreign key that points at no row. *)
Definition dangling (req : request) (d : DB) : bool :=
  match req with
  | POST_users user =>
      negb (has_pk (UserCreate.role_id user) (rows (tbl_Role d)))
  | POST_presentations presentation =>
      negb (has_pk (PresentationCreate.event_id presentation)
                   (rows (tbl_Event d)))
  | POST_tickets ticket =>
      negb (has_pk (TicketCreate.user_id ticket) (rows (tbl_User d)))
      || negb (has_pk (TicketCreate.presentation_id ticket)
                      (rows (tbl_Presentation d)))
  | POST_comments comment =>
      negb (opt_ok (fun k => has_pk k (rows (tbl_Presentation d)))
                   (CommentCreate.presentation_id comment))
      || negb (opt_ok (fun k => has_pk k (rows (tbl_User d)))
                      (CommentCreate.user_id comment))
  | _ => false
  end.

(** The entities whose table has a UNIQUE column. *)
Definition unique_name (e : entity) : bool :=
  match e with
  | ERole | EMusicGender => true
  | _ => false
  end.

Definition comment_route (req : request) : bool :=
  match req with
  | GET_comments | POST_comments _ => true
  | _ => false
  end.

(** What holds of every database a sequence of requests reaches from the
    empty one, beyond [wf_db]: primary keys are distinct, unique names are
    distinct, and every foreign key points at a row. *)
Definition distinct_keys {R} (t : table R) : Prop :=
  NoDup (map fst (rows t)).

Definition points_into {R P} (fk : R -> Z) (child : table R)
    (parent : table P) : Prop :=
  Forall (fun p => has_pk (fk (snd p)) (rows parent) = true) (rows child).

Record sound_db (d : DB) : Prop := Sound
  { sound_wf : wf_db d = true;
    keys_Role : distinct_keys (tbl_Role d);
    keys_User : distinct_keys (tbl_User d);
    keys_Music_Gender : distinct_keys (tbl_Music_Gender d);
    keys_Artist : distinct_keys (tbl_Artist d);
    keys_Event : distinct_keys (tbl_Event d);
    keys_Presentation : distinct_keys (tbl_Presentation d);
    keys_Ticket : distinct_keys (tbl_Ticket d);
    keys_Comment : distinct_keys (tbl_Comment d);
    names_Role : NoDup (map (fun p => Role.name (snd p)) (rows (tbl_Role d)));
    names_Music_Gender :
      NoDup (map (fun p => MusicGender.name (snd p))
                 (rows (tbl_Music_Gender d)));
    fk_User_role : points_into User.role_id (tbl_User d) (tbl_Role d);
    fk_Presentation_event :
      points_into Presentation.event_id (tbl_Presentation d) (tbl_Event d);
    fk_Ticket_user : points_into Ticket.user_id (tbl_Ticket d) (tbl_User d);
    fk_Ticket_presentation :
      points_into Ticket.presentation_id (tbl_Ticket d)
                  (tbl_Presentation d) }.

(** ** More worlds and payloads for the examples *)

Definition gala : EventCreate.t := EventCreate.mk (Some "Gala") None 10.

Definition opening : PresentationCreate.t :=
  PresentationCreate.mk 1 2000 (Some 1000) "flyer.png".

Definition world_with_presentation : World :=
  run_requests [(100, POST_roles admin); (101, POST_users alice);
                (102, POST_events gala); (103, POST_presentations opening)]
               empty_world.

Definition remark : CommentCreate.t :=
  CommentCreate.mk "hi" (Some 1) (Some 1).

Definition production' : list (string * string) :=
  [("dbname", "afrovice"); ("LANG", "C"); ("port", "5432");
   ("host", "db.example.org"); ("password", "p:w"); ("user", "afro");
   ("user", "shadowed")].

Definition production : list (string * string) :=
  [("user", "afro"); ("password", "p:w"); ("host", "db.example.org");
   ("port", "5432"); ("dbname", "afrovice")].

(* ================================================================== *)
(** * Properties of the model *)

(** ** The mapping *)

Lemma restore_same {R} (t : table R) : restore t t = t.
Proof. destruct t; reflexivity. Qed.

Lemma rollback_same d : rollback d d = d.
Proof.
  destruct d; unfold rollback; cbn.
  now rewrite !restore_same.
Qed.

Ltac mapped_laws :=
  constructor;
  [ reflexivity
  | intros t d; reflexivity
  | intros d n; destruct d; unfold rollback; cbn; now rewrite !restore_same ].

#[export] Instance Laws_Role : MappedLaws Role.t.
Proof. mapped_laws. Qed.
#[export] Instance Laws_User : MappedLaws User.t.
Proof. mapped_laws. Qed.
#[export] Instance Laws_MusicGender : MappedLaws MusicGender.t.
Proof. mapped_laws. Qed.
#[export] Instance Laws_Artist : MappedLaws Artist.t.
Proof. mapped_laws. Qed.
#[export] Instance Laws_Event : MappedLaws Event.t.
Proof. mapped_laws. Qed.
#[export] Instance Laws_Presentation : MappedLaws Presentation.t.
Proof. mapped_laws. Qed.
#[export] Instance Laws_Ticket : MappedLaws Ticket.t.
Proof. mapped_laws. Qed.
#[export] Instance Laws_Comment : MappedLaws Comment.t.
Proof. mapped_laws. Qed.

(** ** Lookup by primary key *)

Lemma find_app_fresh {R} (k : Z) (l : list (Z * R)) (x : R) :
  has_pk k l = false ->
  find (fun p => Z.eqb (fst p) k) (l ++ [(k, x)]) = Some (k, x).
Proof.
  induction l as [|p l IH]; cbn; intros Hl.
  - now rewrite Z.eqb_refl.
  - apply orb_false_iff in Hl as [Hp Hl].
    rewrite Hp. now apply IH.
Qed.

Lemma find_app_found {R} (k : Z) (l l' : list (Z * R)) :
  has_pk k l = true ->
  find (fun p => Z.eqb (fst p) k) (l ++ l') = find (fun p => Z.eqb (fst p) k) l.
Proof.
  induction l as [|p l IH]; cbn; intros Hl; [discriminate|].
  destruct (fst p =? k); [reflexivity|]. now apply IH.
Qed.

Lemma traverse_reads {H A} (ser : Session -> A -> M H json) f :
  reads ser f ->
  forall db l s,
    traverse (ser db) l s = (s, traverse_r (f (database (world s))) l).
Proof.
  intros Hr db l s. induction l as [|a l IH]; [reflexivity|].
  cbn. unfold bind. rewrite Hr.
  destruct (f _ a); [|reflexivity].
  rewrite IH. destruct (traverse_r _ l); reflexivity.
Qed.

Lemma List_reads {H A} (ser : Session -> A -> M H json) f :
  reads ser f ->
  reads (fun db => List (ser db))
        (fun d l => map_result JArr (traverse_r (f d) l)).
Proof.
  intros Hr db l s. unfold List, bind.
  rewrite (traverse_reads Hr).
  destruct (traverse_r _ l); reflexivity.
Qed.

Lemma traverse_r_map {A B C} (f : B -> result C) (g : A -> B) (h : A -> C)
    (l : list A) :
  (forall a, In a l -> f (g a) = Ok (h a)) ->
  traverse_r f (map g l) = Ok (map h l).
Proof.
  induction l as [|a l IH]; intros Hf; [reflexivity|].
  cbn. rewrite Hf by now left.
  rewrite IH by (intros; apply Hf; now right). reflexivity.
Qed.

Section Create.
Context {R : Type} `{MappedLaws R}.
Variable now : datetime.
Variable o : datetime -> R.
Variable ser : Session -> R -> M R json.
Variable f : DB -> R -> result json.
Variable item : DB -> Z * R -> json.
Variable status_code : Z.
Hypothesis transient : pk (o now) = None.
Hypothesis ser_reads : reads ser f.
Hypothesis f_instance : forall d p, f d (instance p) = Ok (item d p).

Lemma run_create (w : World) :
  run now (get_db (fun db => route status_code (ser db) (create_endpoint o db))) w
  = create_spec status_code (o now) item w.
Proof.
  destruct w as [d lv n]. unfold create_spec.
  unfold run, get_db, route, create_endpoint, bind, try_finally, SessionLocal,
    Session_close, Session_add, Session_commit, Session_refresh, utcnow, new,
    deref, assign, execute, select, raise, ret, mine, after_session,
    set_pending, set_heap, set_database, set_world.
  cbn.
  rewrite Nat.eqb_refl. cbn.
  unfold bind, execute, assign, ret, INSERT, set_heap, set_database, set_world.
  cbn.
  rewrite transient.
  destruct (in_range (o now)); cbn.
  2:{ rewrite rollback_same, Nat.eqb_refl. reflexivity. }
  destruct (has_pk _ _ || negb _) eqn:E; cbn.
  { rewrite rollback_same_rows, Nat.eqb_refl. reflexivity. }
  apply orb_false_iff in E as [Hk _].
  rewrite pk_set_pk. cbn.
  unfold find_pk. rewrite get_set_table. cbn.
  rewrite find_app_fresh by exact Hk. cbn.
  rewrite ser_reads. cbn.
  rewrite f_instance. cbn.
  rewrite !Nat.eqb_refl. reflexivity.
Qed.
End Create.

Section ReadOnly.
Context {H A : Type}.
Variable now : datetime.
Variable endpoint : Session -> M H A.
Variable q : DB -> result A.
Variable ser : Session -> A -> M H json.
Variable f : DB -> A -> result json.
Variable status_code : Z.
Hypothesis endpoint_reads :
  forall db s, endpoint db s = (s, q (database (world s))).
Hypothesis ser_reads : reads ser f.

Lemma run_read (w : World) :
  run now (get_db (fun db => route status_code (ser db) (endpoint db))) w
  = read_spec status_code
      (fun d => match q d with Ok a => f d a | Raise e => Raise e end) w.
Proof.
  destruct w as [d lv n].
  unfold run, get_db, route, bind, try_finally, SessionLocal, Session_close,
    read_spec, after_session, set_pending, set_world.
  cbn. rewrite endpoint_reads. cbn.
  destruct (q d) as [a|e]; cbn.
  - rewrite ser_reads. cbn.
    destruct (f d a); cbn; rewrite Nat.eqb_refl; reflexivity.
  - rewrite Nat.eqb_refl. reflexivity.
Qed.
End ReadOnly.

Lemma response_model_reads {H A T} (validate : A -> result T) dump :
  reads (fun _ : Session => response_model (H := H) validate dump)
        (pure_model validate dump).
Proof. intros db raw s. reflexivity. Qed.

Lemma CommentRead_reads {H} : reads (CommentRead_ (H := H)) CommentRead_r.
Proof.
  intros db [i c m pid uid pr ur] s.
  unfold CommentRead_, CommentRead.model_validate, CommentRead_r, bind, lift,
    Comment_user, Comment_presentation, Session_get, select, ret, rel_value.
  cbn.
  destruct i as [i|]; cbn; [|reflexivity].
  destruct ur as [|[u|]], uid as [k|]; cbn;
    repeat match goal with
      | |- context [find_pk ?k ?l] => destruct (find_pk k l); cbn
      | |- context [UserRead.model_validate ?u] =>
          destruct (UserRead.model_validate u); cbn
      end;
    try reflexivity;
    (destruct pr as [|[p|]], pid as [k'|]; cbn;
     repeat match goal with
       | |- context [find_pk ?k ?l] => destruct (find_pk k l); cbn
       | |- context [PresentationRead.model_validate ?u] =>
           destruct (PresentationRead.model_validate u); cbn
       end;
     reflexivity).
Qed.

(** A loaded instance always fits its read contract. *)
Lemma RoleRead_instance d p :
  pure_model RoleRead.model_validate RoleRead.model_dump d (instance p)
  = Ok (Role_item p).
Proof. reflexivity. Qed.

Lemma UserRead_instance d p :
  pure_model UserRead.model_validate UserRead.model_dump d (instance p)
  = Ok (User_item p).
Proof. reflexivity. Qed.

Lemma MusicGenderRead_instance d p :
  pure_model MusicGenderRead.model_validate MusicGenderRead.model_dump d
             (instance p)
  = Ok (MusicGender_item p).
Proof. reflexivity. Qed.

Lemma ArtistRead_instance d p :
  pure_model ArtistRead.model_validate ArtistRead.model_dump d (instance p)
  = Ok (Artist_item p).
Proof. reflexivity. Qed.

Lemma EventRead_instance d p :
  pure_model EventRead.model_validate EventRead.model_dump d (instance p)
  = Ok (Event_item p).
Proof. reflexivity. Qed.

Lemma PresentationRead_instance d p :
  pure_model PresentationRead.model_validate PresentationRead.model_dump d
             (instance p)
  = Ok (Presentation_item p).
Proof. reflexivity. Qed.

Lemma TicketRead_instance d p :
  pure_model TicketRead.model_validate TicketRead.model_dump d (instance p)
  = Ok (Ticket_item p).
Proof. reflexivity. Qed.

Lemma nested_user (o : option (Z * User.t)) :
  CommentRead.nested UserRead.model_validate (option_map instance o)
  = Ok (option_map
          (fun p => UserRead.mk (User.name (snd p)) (User.email (snd p))
                                (User.photo (snd p)) (User.role_id (snd p))
                                (fst p)) o).
Proof. destruct o; reflexivity. Qed.

Lemma nested_presentation (o : option (Z * Presentation.t)) :
  CommentRead.nested PresentationRead.model_validate (option_map instance o)
  = Ok (option_map
          (fun p => PresentationRead.mk
                      (Presentation.event_id (snd p))
                      (Presentation.date_start (snd p))
                      (Presentation.date_end (snd p))
                      (Presentation.flyer (snd p)) (fst p)) o).
Proof. destruct o; reflexivity. Qed.

(** The lazy load and the joined load show the same comment. *)
Lemma CommentRead_instance d p :
  CommentRead_r d (instance p) = Ok (Comment_item d p).
Proof.
  destruct p as [k [i c m pid uid pr ur]].
  unfold CommentRead_r, Comment_item, user_of, presentation_of, lookup,
    rel_value. cbn.
  destruct uid as [u|], pid as [q|]; cbn; unfold find_pk;
    rewrite ?nested_user, ?nested_presentation; cbn;
    repeat match goal with
      | |- context [find ?g ?l] => destruct (find g l); cbn
      end; reflexivity.
Qed.

Lemma CommentRead_joined d p :
  CommentRead_r d (joinedload_presentation d (joinedload_user d (instance p)))
  = Ok (Comment_item d p).
Proof.
  destruct p as [k [i c m pid uid pr ur]].
  unfold CommentRead_r, Comment_item, user_of, presentation_of, lookup,
    rel_value. cbn.
  destruct uid as [u|], pid as [q|]; cbn; unfold find_pk;
    rewrite ?nested_user, ?nested_presentation; cbn;
    repeat match goal with
      | |- context [find ?g ?l] => destruct (find g l); cbn
      end; reflexivity.
Qed.

Ltac closed_create inst :=
  unfold serve;
  etransitivity;
  [ eapply run_create;
    [ reflexivity
    | first [ apply response_model_reads | apply CommentRead_reads ]
    | intros d p; apply inst ]
  | reflexivity ].

Ltac closed_list joined item :=
  unfold serve;
  etransitivity;
  [ eapply run_read with
      (q := fun d =>
              Ok (map (fun p => fold_left (fun o opt => opt d o) _ (instance p))
                      (rows (get_table d))));
    [ intros db s; reflexivity
    | apply List_reads;
      first [ apply response_model_reads | apply CommentRead_reads ] ]
  | unfold read_spec; cbn;
    erewrite traverse_r_map by (intros a _; apply joined);
    reflexivity ].

Ltac closed_get inst k detail :=
  unfold serve;
  etransitivity;
  [ eapply run_read with
      (q := fun d => match find_pk k (rows (get_table d)) with
                     | Some o => Ok o
                     | None => Raise (HTTPException 404 detail)
                     end);
    [ intros db s;
      unfold get_user, get_artist, get_event, get_presentation,
        bind, Session_get, select; cbn;
      destruct (find_pk _ _); reflexivity
    | apply response_model_reads ]
  | unfold serve_spec, read_spec, found, lookup, find_pk; cbn;
    destruct (find _ _); reflexivity ].

Theorem serve_eq now req w : serve now req w = serve_spec now req w.
Proof.
  destruct req.
  - destruct w; reflexivity.
  - destruct w; reflexivity.
  - closed_list RoleRead_instance Role_item.
  - closed_create RoleRead_instance.
  - closed_list UserRead_instance User_item.
  - closed_get UserRead_instance user_id "User not found".
  - closed_create UserRead_instance.
  - closed_list MusicGenderRead_instance MusicGender_item.
  - closed_create MusicGenderRead_instance.
  - closed_list ArtistRead_instance Artist_item.
  - closed_get ArtistRead_instance artist_id "Artist not found".
  - closed_create ArtistRead_instance.
  - closed_list EventRead_instance Event_item.
  - closed_get EventRead_instance event_id "Event not found".
  - closed_create EventRead_instance.
  - closed_list PresentationRead_instance Presentation_item.
  - closed_get PresentationRead_instance presentation_id
      "Presentation not found".
  - closed_create PresentationRead_instance.
  - closed_list TicketRead_instance Ticket_item.
  - closed_create TicketRead_instance.
  - closed_list CommentRead_joined Comment_item.
  - closed_create CommentRead_instance.
Qed.


(** ** The scenario of the specification

    Role Admin, then a user with that role, then the user by identifier,
    then an identifier nobody has. *)
Example scenario :
  let post_role := serve 100 (POST_roles admin) empty_world in
  let post_user := serve 101 (POST_users alice) (fst post_role) in
  let get_1 := serve 102 (GET_users_id 1) (fst post_user) in
  let get_999 := serve 103 (GET_users_id 999) (fst get_1) in
  snd post_role
  = {| status := 201; body := JObj [("name", JStr "Admin"); ("id", JInt 1)] |}
  /\ snd post_user
     = {| status := 201;
          body := JObj [("name", JStr "A"); ("email", JStr "a@b.com");
                        ("photo", JNull); ("role_id", JInt 1);
                        ("id", JInt 1)] |}
  /\ snd get_1 = {| status := 200; body := body (snd post_user) |}
  /\ snd get_999
     = {| status := 404; body := JObj [("detail", JStr "User not found")] |}.
Proof. repeat split. Qed.

(** ** Case analysis on the request *)

Ltac split_if :=
  match goal with
  | |- context [if ?c then _ else _] =>
      lazymatch c with
      | context [if _ then _ else _] => fail
      | _ => destruct c eqn:?
      end
  end.

Ltac simpl_response :=
  cbn [fst snd database status body exception_response Z.eqb Pos.eqb
       entity_eqb andb] in *.

(** Rewrite the application to its closed form and open the cases of the
    routing table and of the INSERT. *)
Ltac by_request req :=
  rewrite ?serve_eq in *;
  destruct req; cbn [serve_spec creates depends_on_get_db payload] in *;
  unfold create_spec, read_spec in *;
  try discriminate;
  simpl_response;
  repeat (split_if; simpl_response).

Lemma prefix_refl {A} (l : list A) : prefix l l.
Proof. exists []. now rewrite app_nil_r. Qed.

Lemma prefix_app {A} (l t : list A) : prefix l (l ++ t).
Proof. now exists t. Qed.

Lemma extends_refl d : extends d d.
Proof. repeat split; apply prefix_refl. Qed.

Lemma same_rows_refl d : same_rows d d.
Proof. repeat split. Qed.

Create HintDb rows.
#[local] Hint Resolve prefix_refl prefix_app extends_refl same_rows_refl : rows.

(* ================================================================== *)
(** * The properties the specification states *)



(** C6.  A POST /roles, or a POST /genders, whose name a stored row
    already has is refused by the storage engine: the answer is the 500 of
    an exception nobody handles, and no table gains or loses a row. *)
Theorem C6_duplicate_name_rejected now req w :
  duplicate_name req (database w) = true ->
  status (snd (serve now req w)) = 500
  /\ same_rows (database w) (database (fst (serve now req w))).
Proof.
  intros Hdup.
  by_request req; destruct w as [d lv n]; destruct d; cbn in *;
    try solve [split; [reflexivity | repeat split]].
  - rewrite Hdup in *. rewrite orb_true_r in *. discriminate.
  - rewrite Hdup in *. rewrite orb_true_r in *. discriminate.
Qed.

Lemma mentions_arr k l : mentions k (JArr l) = existsb (mentions k) l.
Proof. induction l as [|x l IH]; cbn in *; [reflexivity|]. now rewrite IH. Qed.

Lemma existsb_map_false {A B} (f : B -> bool) (g : A -> B) l :
  (forall a, f (g a) = false) -> existsb f (map g l) = false.
Proof.
  intros Hf. induction l as [|a l IH]; cbn; [reflexivity|].
  now rewrite Hf, IH.
Qed.

Ltac open_options :=
  repeat match goal with
    | |- context [opt_json _ ?o] => destruct o; cbn
    | |- context [match ?o with Some _ => _ | None => _ end] =>
        destruct o; cbn
    end.

Lemma Comment_item_no_foreign_keys d p :
  mentions "presentation_id" (Comment_item d p) = false
  /\ mentions "user_id" (Comment_item d p) = false.
Proof.
  unfold Comment_item, user_of, presentation_of, User_item, Presentation_item.
  split; cbn; open_options; reflexivity.
Qed.

Lemma C6_witness :
  status (snd (serve 102 (POST_roles admin) world_with_role)) = 500
  /\ same_rows (database world_with_role)
               (database (fst (serve 102 (POST_roles admin) world_with_role))).
Proof.
  apply (C6_duplicate_name_rejected 102 (POST_roles admin) world_with_role).
  reflexivity.
Defined.


Ltac not_a_field :=
  cbn; intros Hin;
  repeat (destruct Hin as [Hin|Hin]; [discriminate Hin|]);
  exact Hin.

(** C5.  When a create endpoint stores a row, the row has the next value
    of the sequence of its table as [id] and the reading of the server
    clock as [created_at], whatever the payload; and no create contract
    has a field [id] or [created_at] for a client to fill. *)
Theorem C5_server_stamps_id_and_created_at now req e w :
  creates req = Some e ->
  status (snd (serve now req w)) = 201 ->
  stamps e (database (fst (serve now req w)))
  = stamps e (database w) ++ [(next_id e (database w), now)]
  /\ ~ In "id" (map fst (payload req))
  /\ ~ In "created_at" (map fst (payload req)).
Proof.
  intros He Hs.
  by_request req; try discriminate Hs;
    injection He as <-; destruct w as [d lv n]; destruct d; cbn;
    (split; [rewrite map_app; reflexivity|]);
    split; not_a_field.
Qed.

Lemma C5_witness :
  stamps ERole
    (database (fst (serve 7 (POST_roles (RoleCreate.mk "Admin")) empty_world)))
  = [(1, 7)].
Proof.
  apply (C5_server_stamps_id_and_created_at
           7 (POST_roles (RoleCreate.mk "Admin")) empty_world (e := ERole));
    reflexivity.
Defined.

Ltac open_insert :=
  repeat progress
    (unfold references;
     cbn [database get_table set_table in_range constraints
          Mapped_Role Mapped_User Mapped_MusicGender Mapped_Artist Mapped_Event
          Mapped_Presentation Mapped_Ticket Mapped_Comment
          tbl_Role tbl_User tbl_Music_Gender tbl_Artist tbl_Event
          tbl_Presentation tbl_Ticket tbl_Comment
          Role.name Role.id User.role_id Event.price Presentation.event_id
          Ticket.user_id Ticket.presentation_id Comment.user_id
          Comment.presentation_id MusicGender.name negb]).

(** The conditions of an INSERT are made of a few boolean atoms; the
    cases of a request are the cases of its atoms. *)
Ltac atoms :=
  repeat match goal with
    | |- context [has_pk ?k ?l] => destruct (has_pk k l)
    | |- context [existsb ?f ?l] => destruct (existsb f l)
    | |- context [int64 ?x] => destruct (int64 x)
    | |- context [int32 ?x] => destruct (int32 x)
    end.




Lemma filter_fresh_sessions (n : nat) (l : list nat) :
  ~ In n (filter (fun i => negb (Nat.eqb i n)) l).
Proof.
  intros Hin. apply filter_In in Hin as [_ Hn].
  now rewrite Nat.eqb_refl in Hn.
Qed.

(** Whatever depends on [get_db], and however it ends, the session that
    [get_db] opened is closed when [get_db] is left. *)
Lemma get_db_closes {H A} (dependant : Session -> M H A) (s : State H) :
  ~ In (next_sid (world s)) (live (world (fst (get_db dependant s)))).
Proof.
  unfold get_db, bind, try_finally, SessionLocal, Session_close. cbn.
  destruct (dependant _ _) as [s' r]. cbn.
  apply filter_fresh_sessions.
Qed.

(** C8, amended.  A request to a route that depends on [get_db] (every
    route but /ping and /) opens one session, which no earlier request
    held, and the session is closed when the answer leaves, whether the
    answer is a success, a 404 or a 500; the other open sessions stay as
    they were.  A request to /ping or to / opens no session and leaves the
    world as it was.  The closing does not depend on what runs inside
    [get_db]. *)
Theorem C8_session_scoped_to_request now req w :
  let w' := fst (serve now req w) in
  (if depends_on_get_db req
   then next_sid w' = S (next_sid w)
        /\ ~ In (next_sid w) (live w')
        /\ live w' = filter (fun i => negb (Nat.eqb i (next_sid w))) (live w)
   else w' = w)
  /\ (forall H A (dependant : Session -> M H A) (s : State H),
        ~ In (next_sid (world s)) (live (world (fst (get_db dependant s))))).
Proof.
  cbv zeta. split; [|intros; apply get_db_closes].
  by_request req; cbn; try reflexivity;
    (split; [reflexivity | split; [apply filter_fresh_sessions | reflexivity]]).
Qed.

(** C8 as worded fails: GET /ping opens no session. *)
Lemma C8_counterexample : ~ acquires_session 0 GET_ping empty_world.
Proof. unfold acquires_session. cbn. discriminate. Qed.

Lemma fresh_unused {R} (t : table R) :
  fresh t = true -> has_pk (seq t) (rows t) = false.
Proof.
  unfold fresh, has_pk. intros Hf.
  induction (rows t) as [|p l IH]; cbn in *; [reflexivity|].
  apply andb_true_iff in Hf as [Hp Hl].
  rewrite (IH Hl), orb_false_r.
  apply Z.ltb_lt in Hp. apply Z.eqb_neq. lia.
Qed.



(** ** Reachable databases *)

Lemma fresh_bump {R} (t : table R) :
  fresh t = true -> fresh {| rows := rows t; seq := seq t + 1 |} = true.
Proof.
  unfold fresh. cbn. intros Hf.
  apply forallb_forall. intros p Hp.
  rewrite forallb_forall in Hf. specialize (Hf p Hp).
  apply Z.ltb_lt in Hf. apply Z.ltb_lt. lia.
Qed.

Lemma fresh_insert {R} (t : table R) (x : R) :
  fresh t = true ->
  fresh {| rows := rows t ++ [(seq t, x)]; seq := seq t + 1 |} = true.
Proof.
  intros Hf. apply fresh_bump in Hf. unfold fresh in *. cbn in *.
  rewrite forallb_app, Hf. cbn.
  rewrite andb_true_r. apply Z.ltb_lt. lia.
Qed.

Lemma has_pk_app {R} k (l l' : list (Z * R)) :
  has_pk k l = true -> has_pk k (l ++ l') = true.
Proof.
  unfold has_pk. intros Hk. now rewrite existsb_app, Hk.
Qed.

Lemma fk_ok_app users presentations l l' c :
  fk_ok users presentations c = true ->
  fk_ok (users ++ l) (presentations ++ l') c = true.
Proof.
  unfold fk_ok. intros Hc. apply andb_true_iff in Hc as [Hp Hu].
  apply andb_true_iff. split.
  - destruct (Comment.presentation_id c); cbn in *; auto using has_pk_app.
  - destruct (Comment.user_id c); cbn in *; auto using has_pk_app.
Qed.

Lemma all_fk_ok_app users presentations l l' (cs : list (Z * Comment.t)) :
  forallb (fun p => fk_ok users presentations (snd p)) cs = true ->
  forallb (fun p => fk_ok (users ++ l) (presentations ++ l') (snd p)) cs = true.
Proof.
  intros Hcs. apply forallb_forall. intros p Hp.
  rewrite forallb_forall in Hcs. now apply fk_ok_app, Hcs.
Qed.

Lemma all_fk_ok_users users presentations l (cs : list (Z * Comment.t)) :
  forallb (fun p => fk_ok users presentations (snd p)) cs = true ->
  forallb (fun p => fk_ok (users ++ l) presentations (snd p)) cs = true.
Proof.
  intros Hcs. apply all_fk_ok_app with (l := l) (l' := []) in Hcs.
  now rewrite app_nil_r in Hcs.
Qed.

Lemma all_fk_ok_presentations users presentations l
    (cs : list (Z * Comment.t)) :
  forallb (fun p => fk_ok users presentations (snd p)) cs = true ->
  forallb (fun p => fk_ok users (presentations ++ l) (snd p)) cs = true.
Proof.
  intros Hcs. apply all_fk_ok_app with (l := []) (l' := l) in Hcs.
  now rewrite app_nil_r in Hcs.
Qed.

Lemma wf_db_spec d :
  wf_db d = true <->
  fresh (tbl_Role d) = true /\ fresh (tbl_User d) = true
  /\ fresh (tbl_Music_Gender d) = true /\ fresh (tbl_Artist d) = true
  /\ fresh (tbl_Event d) = true /\ fresh (tbl_Presentation d) = true
  /\ fresh (tbl_Ticket d) = true /\ fresh (tbl_Comment d) = true
  /\ forallb (fun p => fk_ok (rows (tbl_User d)) (rows (tbl_Presentation d))
                             (snd p))
             (rows (tbl_Comment d)) = true.
Proof.
  unfold wf_db. rewrite !andb_true_iff.
  change (forallb (fun p => constraints d (snd p)) (rows (tbl_Comment d)))
    with (forallb (fun p => fk_ok (rows (tbl_User d))
                                  (rows (tbl_Presentation d)) (snd p))
                  (rows (tbl_Comment d))).
  tauto.
Qed.

(** Every request takes a reachable database to a reachable database. *)
Lemma serve_wf now req w :
  wf_db (database w) = true ->
  wf_db (database (fst (serve now req w))) = true.
Proof.
  rewrite !wf_db_spec.
  intros (H1 & H2 & H3 & H4 & H5 & H6 & H7 & H8 & H9).
  by_request req; destruct w as [d lv n]; destruct d; cbn in *;
    repeat split;
    auto using all_fk_ok_users, all_fk_ok_presentations;
    try match goal with
      | H : fresh ?t = true |- forallb _ (rows ?t) = true =>
          exact (fresh_bump _ H)
      | H : fresh ?t = true |- forallb _ (rows ?t ++ _) = true =>
          exact (fresh_insert _ _ H)
      end.
  rewrite forallb_app, H9. cbn.
  apply orb_false_iff in Heqb0 as [_ Hc].
  apply negb_false_iff in Hc.
  rewrite andb_true_r. exact Hc.
Qed.

Lemma empty_world_wf : wf_db (database empty_world) = true.
Proof. reflexivity. Qed.

(** Every database a sequence of requests reaches from the empty one is
    of that kind. *)
Lemma run_requests_wf tr : forall w,
  wf_db (database w) = true ->
  wf_db (database (run_requests tr w)) = true.
Proof.
  induction tr as [|[now req] tr IH]; intros w Hwf; cbn [run_requests].
  - exact Hwf.
  - now apply IH, serve_wf.
Qed.

(** ** What a list endpoint shows, request after request *)

(** A comment whose foreign keys point at rows is shown the same after
    rows are appended to the tables they point into. *)
Lemma Comment_item_stable d d' p :
  fk_ok (rows (tbl_User d)) (rows (tbl_Presentation d)) (snd p) = true ->
  prefix (rows (tbl_User d)) (rows (tbl_User d')) ->
  prefix (rows (tbl_Presentation d)) (rows (tbl_Presentation d')) ->
  Comment_item d' p = Comment_item d p.
Proof.
  intros Hfk [lu Hu] [lp Hp].
  apply andb_true_iff in Hfk as [Hfp Hfu].
  unfold Comment_item, user_of, presentation_of, lookup.
  rewrite Hu, Hp.
  destruct (Comment.user_id (snd p)) as [u|],
           (Comment.presentation_id (snd p)) as [q|]; cbn in *;
    rewrite ?find_app_found by assumption; reflexivity.
Qed.

Lemma listing_comments_stable d d' :
  forallb (fun p => fk_ok (rows (tbl_User d)) (rows (tbl_Presentation d))
                          (snd p))
          (rows (tbl_Comment d)) = true ->
  prefix (rows (tbl_User d)) (rows (tbl_User d')) ->
  prefix (rows (tbl_Presentation d)) (rows (tbl_Presentation d')) ->
  map (Comment_item d') (rows (tbl_Comment d))
  = map (Comment_item d) (rows (tbl_Comment d)).
Proof.
  intros Hfk Hu Hp. apply map_ext_in. intros p Hin.
  rewrite forallb_forall in Hfk.
  apply Comment_item_stable; auto.
Qed.

(** One request: the listing of an entity grows by the body of the 201 of
    its create endpoint, and by nothing else. *)
Lemma serve_listing now req e w :
  wf_db (database w) = true ->
  listing e (database (fst (serve now req w)))
  = listing e (database w)
    ++ (if created_by e req (snd (serve now req w))
        then [body (snd (serve now req w))]
        else []).
Proof.
  rewrite wf_db_spec.
  intros (_ & _ & _ & _ & _ & _ & _ & _ & H9).
  unfold created_by.
  destruct e; by_request req;
    rewrite ?app_nil_r; try reflexivity;
    destruct w as [d lv n]; unfold after_session;
    cbn [listing database tbl_Comment get_table set_table
      Mapped_Role Mapped_User Mapped_MusicGender Mapped_Artist Mapped_Event
      Mapped_Presentation Mapped_Ticket Mapped_Comment rows tbl_Role tbl_User
      tbl_Music_Gender tbl_Artist tbl_Event tbl_Presentation tbl_Ticket] in *;
    rewrite ?map_app; try reflexivity;
    apply listing_comments_stable; cbn; auto with rows.
Qed.

Lemma run_requests_listing e tr : forall w,
  wf_db (database w) = true ->
  listing e (database (run_requests tr w))
  = listing e (database w) ++ created e tr w.
Proof.
  induction tr as [|[now req] tr IH]; intros w Hwf; cbn [run_requests created].
  - now rewrite app_nil_r.
  - rewrite IH by now apply serve_wf.
    rewrite (serve_listing now req e w Hwf).
    now rewrite app_assoc.
Qed.

Lemma listing_keys e d :
  Forall (fun item => keys item = read_keys e) (listing e d).
Proof.
  apply Forall_forall. intros item Hin.
  destruct e; cbn [listing] in Hin;
    apply in_map_iff in Hin as [p [<- _]]; reflexivity.
Qed.

Lemma serve_list now e w :
  serve now (list_request e) w
  = (after_session w (database w),
     {| status := 200; body := JArr (listing e (database w)) |}).
Proof. rewrite serve_eq. destruct e; reflexivity. Qed.



(** ** Passwords *)

#[local] Arguments has_pk : simpl never.

Lemma has_pk_blank k (l : list (Z * User.t)) :
  has_pk k (map blank_row l) = has_pk k l.
Proof.
  unfold has_pk. induction l as [|p l IH]; cbn; [reflexivity|].
  now rewrite IH.
Qed.

Lemma find_blank k (l : list (Z * User.t)) :
  find (fun p => Z.eqb (fst p) k) (map blank_row l)
  = option_map blank_row (find (fun p => Z.eqb (fst p) k) l).
Proof.
  induction l as [|p l IH]; cbn; [reflexivity|].
  destruct (fst p =? k); [reflexivity | exact IH].
Qed.

Lemma listing_users_blank (l : list (Z * User.t)) :
  map User_item (map blank_row l) = map User_item l.
Proof. rewrite map_map. apply map_ext. intros p. reflexivity. Qed.

Lemma blank_row_idem (l : list (Z * User.t)) :
  map blank_row (map blank_row l) = map blank_row l.
Proof. rewrite map_map. apply map_ext. intros p. reflexivity. Qed.

Lemma Comment_item_erase d p :
  Comment_item (erase_db d) p = Comment_item d p.
Proof.
  unfold Comment_item, user_of, presentation_of, lookup. cbn.
  destruct (Comment.user_id (snd p)) as [u|]; [|reflexivity].
  rewrite find_blank.
  destruct (find _ (rows (tbl_User d))); reflexivity.
Qed.

Lemma listing_erase e d : listing e (erase_db d) = listing e d.
Proof.
  destruct e; cbn [listing erase_db tbl_Role tbl_User tbl_Music_Gender
                   tbl_Artist tbl_Event tbl_Presentation tbl_Ticket tbl_Comment
                   rows];
    try reflexivity.
  - apply listing_users_blank.
  - apply map_ext. intros p. apply Comment_item_erase.
Qed.

(** A request is answered the same, and leaves the same world up to
    passwords, when the passwords stored and the password supplied are
    blanked out beforehand. *)
Lemma serve_erase now req w :
  snd (serve now req w) = snd (serve now (erase_request req) (erase_world w))
  /\ erase_world (fst (serve now req w))
     = erase_world (fst (serve now (erase_request req) (erase_world w))).
Proof.
  rewrite !serve_eq.
  destruct w as [d lv n].
  destruct req; cbn [serve_spec erase_request];
    unfold read_spec, create_spec, after_session, erase_world;
    cbn [database live next_sid fst snd];
    rewrite ?listing_erase;
    destruct d; unfold erase_db, found, lookup;
    try (destruct comment as [m [pid|] [uid|]]);
    repeat progress (unfold references; cbn;
                     rewrite ?has_pk_blank, ?find_blank, ?blank_row_idem);
    try (split; reflexivity);
    try (destruct (find _ _); split; reflexivity);
    atoms; cbn;
    rewrite ?map_app, ?blank_row_idem, ?find_blank;
    try (split; reflexivity);
    unfold Comment_item, user_of, presentation_of, lookup; cbn;
    rewrite find_blank;
    destruct (find _ (rows tbl_User0)); split; reflexivity.
Qed.

Ltac item_has_no_key :=
  unfold Role_item, User_item, MusicGender_item, Artist_item, Event_item,
    Presentation_item, Ticket_item, Comment_item;
  cbn; open_options; reflexivity.

Lemma listing_no_password e d :
  mentions "password" (JArr (listing e d)) = false.
Proof.
  rewrite mentions_arr.
  destruct e; cbn [listing]; apply existsb_map_false; intros p;
    item_has_no_key.
Qed.

Lemma no_password now req w :
  mentions "password" (body (snd (serve now req w))) = false.
Proof.
  by_request req; unfold found, lookup;
    cbn [answer status body snd];
    try apply listing_no_password;
    try reflexivity;
    try (destruct (find _ _); reflexivity || item_has_no_key);
    item_has_no_key.
Qed.



(* ================================================================== *)
(** * Further properties of [main.py] *)

(** ** Rows are only ever appended *)

Lemma serve_extends now req w :
  extends (database w) (database (fst (serve now req w))).
Proof.
  by_request req; destruct w as [d lv n]; destruct d; cbn;
    repeat split; cbn; auto with rows.
Qed.

Lemma run_requests_extends tr : forall w,
  extends (database w) (database (run_requests tr w)).
Proof.
  induction tr as [|[now req] tr IH]; intros w; cbn [run_requests].
  - apply extends_refl.
  - pose proof (serve_extends now req w) as H1.
    pose proof (IH (fst (serve now req w))) as H2.
    unfold extends, prefix in *.
    repeat match goal with
      | H : _ /\ _ |- _ => destruct H
      | H : exists _, _ |- _ => destruct H
      end.
    repeat split;
      match goal with
      | H1 : ?b = ?a ++ ?x, H2 : ?c = ?b ++ ?y |- exists t, ?c = ?a ++ t =>
          exists (x ++ y); rewrite H2, H1; now rewrite app_assoc
      end.
Qed.

(** ** The invariant of reachable databases *)

Lemma keys_insert {R} k (x : R) (l : list (Z * R)) :
  NoDup (map fst l) -> has_pk k l = false ->
  NoDup (map fst (l ++ [(k, x)])).
Proof.
  intros Hnd Hk. rewrite map_app. cbn.
  apply NoDup_app; [exact Hnd | repeat constructor; intros [] |].
  intros j Hj [Hjk|[]]. subst j.
  apply in_map_iff in Hj as [p [Hp Hin]].
  unfold has_pk in Hk.
  assert (existsb (fun p => fst p =? k) l = true) as Ht.
  { apply existsb_exists. exists p. split; [exact Hin|]. apply Z.eqb_eq.
    exact Hp. }
  congruence.
Qed.

Lemma names_insert {R} (name : Z * R -> string) n (x : Z * R)
    (l : list (Z * R)) :
  NoDup (map name l) ->
  existsb (fun p => String.eqb (name p) n) l = false ->
  name x = n ->
  NoDup (map name (l ++ [x])).
Proof.
  intros Hnd Hn Hx. rewrite map_app. cbn.
  apply NoDup_app; [exact Hnd | repeat constructor; intros [] |].
  intros m Hm [Hmx|[]]. subst m.
  apply in_map_iff in Hm as [p [Hp Hin]].
  assert (existsb (fun p => String.eqb (name p) n) l = true) as Ht.
  { apply existsb_exists. exists p. split; [exact Hin|].
    apply String.eqb_eq. congruence. }
  congruence.
Qed.

Lemma points_into_parent {R P} (fk : R -> Z) (rs : list (Z * R))
    (ps l : list (Z * P)) :
  Forall (fun p => has_pk (fk (snd p)) ps = true) rs ->
  Forall (fun p => has_pk (fk (snd p)) (ps ++ l) = true) rs.
Proof.
  intros Hf. eapply Forall_impl; [|exact Hf].
  intros p Hp. now apply has_pk_app.
Qed.

Lemma points_into_child {R P} (fk : R -> Z) (rs : list (Z * R))
    (ps : list (Z * P)) (x : Z * R) :
  Forall (fun p => has_pk (fk (snd p)) ps = true) rs ->
  has_pk (fk (snd x)) ps = true ->
  Forall (fun p => has_pk (fk (snd p)) ps = true) (rs ++ [x]).
Proof.
  intros Hf Hx. apply Forall_app. split; [exact Hf|].
  now repeat constructor.
Qed.

Lemma empty_db_sound : sound_db empty_db.
Proof. constructor; try reflexivity; constructor. Qed.

Lemma serve_sound now req w :
  sound_db (database w) -> sound_db (database (fst (serve now req w))).
Proof.
  intros [Hwf K1 K2 K3 K4 K5 K6 K7 K8 N1 N3 F1 F2 F3 F4].
  constructor; [now apply serve_wf| ..];
    clear Hwf;
    unfold distinct_keys, points_into in *;
    by_request req; destruct w as [d lv n]; destruct d; cbn in *;
    try assumption;
    try match goal with
      | H : _ || _ = false |- _ =>
          apply orb_false_iff in H as [Hk Hc];
          try apply negb_false_iff in Hc
      end;
    try (apply keys_insert; assumption);
    try (apply points_into_parent; assumption);
    try (eapply names_insert;
         [assumption | apply negb_true_iff in Hc; exact Hc | reflexivity]);
    apply points_into_child; try assumption;
    unfold references in Hc; cbn in Hc |- *;
    try apply andb_true_iff in Hc as [Hc1 Hc2]; assumption.
Qed.

Lemma run_requests_sound tr : forall w,
  sound_db (database w) -> sound_db (database (run_requests tr w)).
Proof.
  induction tr as [|[now req] tr IH]; intros w Hs; cbn [run_requests].
  - exact Hs.
  - now apply IH, serve_sound.
Qed.

Lemma shown_listing e now w : shown e now w = listing e (database w).
Proof. unfold shown. now rewrite serve_list. Qed.

(** ** Foreign keys and unique columns, as the list endpoints show them *)

Lemma has_pk_In {R} k (l : list (Z * R)) :
  has_pk k l = true -> exists p, In p l /\ fst p = k.
Proof.
  unfold has_pk. intros Hk.
  apply existsb_exists in Hk as [p [Hin Hp]].
  exists p. split; [exact Hin|]. now apply Z.eqb_eq.
Qed.

Lemma points_into_shown {R P} (fk : R -> Z) (child : table R)
    (parent : table P) (name : string) (citem : Z * R -> json)
    (pitem : Z * P -> json) :
  (forall p, field name (citem p) = Some (JInt (fk (snd p)))) ->
  (forall q, field "id" (pitem q) = Some (JInt (fst q))) ->
  points_into fk child parent ->
  Forall (fun c => Exists (refers name c "id") (map pitem (rows parent)))
         (map citem (rows child)).
Proof.
  intros Hc Hp Hfk. apply Forall_forall. intros c Hin.
  apply in_map_iff in Hin as [p [<- Hin]].
  unfold points_into in Hfk. rewrite Forall_forall in Hfk.
  apply Hfk, has_pk_In in Hin as [q [Hq Hk]].
  apply Exists_exists. exists (pitem q). split.
  - now apply in_map.
  - exists (fk (snd p)). split; [apply Hc|]. rewrite <- Hk. apply Hp.
Qed.


Lemma NoDup_map_injective {A B} (f : A -> B) (l : list A) :
  (forall a b, f a = f b -> a = b) -> NoDup l -> NoDup (map f l).
Proof.
  intros Hf Hnd. induction Hnd as [|a l Hin Hnd IH]; cbn; constructor.
  - intros Hm. apply in_map_iff in Hm as [b [Hb Hl]].
    apply Hf in Hb. now subst.
  - exact IH.
Qed.

Lemma distinct_keys_shown {R} (t : table R) (item : Z * R -> json) :
  (forall p, field "id" (item p) = Some (JInt (fst p))) ->
  distinct_keys t ->
  NoDup (map (field "id") (map item (rows t))).
Proof.
  intros Hid Hk. rewrite map_map.
  rewrite (map_ext _ (fun p => Some (JInt (fst p))) Hid).
  rewrite <- (map_map fst (fun k => Some (JInt k))).
  apply NoDup_map_injective; [|exact Hk].
  intros a b Hab. now injection Hab.
Qed.

Lemma distinct_names_shown {R} (l : list (Z * R)) (name : Z * R -> string)
    (item : Z * R -> json) :
  (forall p, field "name" (item p) = Some (JStr (name p))) ->
  NoDup (map name l) ->
  NoDup (map (field "name") (map item l)).
Proof.
  intros Hn Hk. rewrite map_map.
  rewrite (map_ext _ (fun p => Some (JStr (name p))) Hn).
  rewrite <- (map_map name (fun s => Some (JStr s))).
  apply NoDup_map_injective; [|exact Hk].
  intros a b Hab. now injection Hab.
Qed.

(** X2.  After any sequence of requests from the empty database, no two
    items of a list endpoint have the same [id], and no two roles, and no
    two music genders, have the same [name]. *)
Theorem X2_listed_ids_and_unique_names_are_distinct tr now e :
  let w := run_requests tr empty_world in
  NoDup (map (field "id") (shown e now w))
  /\ if unique_name e
     then NoDup (map (field "name") (shown e now w))
     else True.
Proof.
  cbv zeta. rewrite !shown_listing.
  destruct (run_requests_sound tr empty_world empty_db_sound).
  destruct e; cbn [listing unique_name]; split;
    try exact I;
    try (apply distinct_keys_shown; [reflexivity | assumption]);
    eapply distinct_names_shown; eauto; reflexivity.
Qed.

(** ** A created row is found, and stays found *)

Lemma lookup_prefix {R} k (t t' : table R) p :
  lookup k t = Some p -> prefix (rows t) (rows t') -> lookup k t' = Some p.
Proof.
  unfold lookup. intros Hl [l Hr]. rewrite Hr.
  rewrite find_app_found; [exact Hl|].
  unfold has_pk. apply existsb_exists. exists p.
  apply find_some in Hl. exact Hl.
Qed.

Lemma stored_prefix e k d d' b :
  stored e k d = Some b -> extends d d' -> stored e k d' = Some b.
Proof.
  intros Hs (_ & HU & _ & HA & _ & HE & HP & _).
  destruct e; cbn [stored] in *;
    match goal with
    | H : option_map _ (lookup k ?t) = Some b |- _ =>
        destruct (lookup k t) as [p|] eqn:Hl; [|discriminate H]
    end;
    erewrite lookup_prefix; eauto.
Qed.

Lemma serve_get now e k w :
  snd (serve now (get_request e k) w)
  = match stored e k (database w) with
    | Some row => {| status := 200; body := row |}
    | None => not_found e
    end.
Proof.
  rewrite serve_eq.
  destruct e; cbn; unfold found, stored, not_found;
    destruct (lookup k _); reflexivity.
Qed.

(** What a 201 of one of the four entities leaves in its table. *)
Lemma created_is_stored now req e w :
  creates req = Some (entity_of e) ->
  status (snd (serve now req w)) = 201 ->
  exists k,
    field "id" (body (snd (serve now req w))) = Some (JInt k)
    /\ stored e k (database (fst (serve now req w)))
       = Some (body (snd (serve now req w))).
Proof.
  intros He Hs.
  destruct e; by_request req; try discriminate He; try discriminate Hs;
    apply orb_false_iff in Heqb0 as [Hfresh _];
    destruct w as [d lv n]; destruct d; cbn in *;
    eexists; (split; [reflexivity|]);
    unfold lookup; cbn;
    rewrite find_app_fresh by assumption; reflexivity.
Qed.

(** X3.  When POST /users, /artists, /events or /presentations answers
    201, a GET of the [id] in the body answers 200 with that same body,
    at once and after any further sequence of requests. *)
Theorem X3_created_row_is_found_by_id now req e w k tr now' :
  creates req = Some (entity_of e) ->
  status (snd (serve now req w)) = 201 ->
  field "id" (body (snd (serve now req w))) = Some (JInt k) ->
  snd (serve now' (get_request e k) (run_requests tr (fst (serve now req w))))
  = {| status := 200; body := body (snd (serve now req w)) |}.
Proof.
  intros He Hs Hk.
  destruct (created_is_stored now req e w He Hs) as [k' [Hk' Hst]].
  assert (k' = k) as -> by congruence.
  rewrite serve_get.
  now rewrite (stored_prefix _ _ Hst (run_requests_extends tr _)).
Qed.

(** ** Comments and what they embed *)

Lemma has_pk_lookup {R} k (t : table R) :
  has_pk k (rows t) = true -> exists p, lookup k t = Some p.
Proof.
  unfold has_pk, lookup. intros Hk.
  destruct (find _ (rows t)) as [p|] eqn:Hf; [now exists p|].
  apply existsb_exists in Hk as [p [Hin Hp]].
  now rewrite (find_none _ _ Hf p Hin) in Hp.
Qed.


(** ** Foreign keys that point at nothing *)

(** X5.  A POST /users whose [role_id] no role has, a POST /presentations
    whose [event_id] no event has, a POST /tickets whose [user_id] or
    [presentation_id] points at nothing, and a POST /comments that gives
    a [user_id] or a [presentation_id] that points at nothing, are
    answered 500, and no table gains or loses a row. *)
Theorem X5_dangling_foreign_key_rejected now req w :
  dangling req (database w) = true ->
  status (snd (serve now req w)) = 500
  /\ same_rows (database w) (database (fst (serve now req w))).
Proof.
  intros Hd.
  by_request req; destruct w as [d lv n]; destruct d;
    try solve [split; [reflexivity | repeat split]].
  all: exfalso; apply orb_false_iff in Heqb0 as [_ Hc];
    apply negb_false_iff in Hc;
    cbn in Hd, Hc; unfold references in Hc; cbn in Hc;
    try rewrite Hc in Hd; try discriminate Hd.
  all: apply andb_true_iff in Hc as [Hc1 Hc2];
    rewrite Hc1, Hc2 in Hd; discriminate Hd.
Qed.

(** ** Reads *)

(** The answer to a request, and the database it leaves, depend on the
    database alone, not on the sessions opened so far. *)
Lemma serve_database_only now req w1 w2 :
  database w1 = database w2 ->
  snd (serve now req w1) = snd (serve now req w2)
  /\ database (fst (serve now req w1)) = database (fst (serve now req w2)).
Proof.
  intros Hd. rewrite !serve_eq.
  destruct w1 as [d1 l1 n1], w2 as [d2 l2 n2]. cbn in Hd. subst d2.
  destruct req; cbn [serve_spec]; unfold create_spec, read_spec;
    cbn [database]; repeat split_if; split; reflexivity.
Qed.

Lemma read_keeps_database now req w :
  creates req = None -> database (fst (serve now req w)) = database w.
Proof.
  intros Hr. by_request req; destruct w; reflexivity.
Qed.

(** X6.  A GET (a list, a get by identifier, /ping, /) leaves the
    database exactly as it was, sequences included; so whatever request
    comes next is answered as if the GET had not happened, and leaves the
    database it would have left. *)
Theorem X6_reads_change_nothing now req w now' req' :
  creates req = None ->
  database (fst (serve now req w)) = database w
  /\ snd (serve now' req' (fst (serve now req w))) = snd (serve now' req' w)
  /\ database (fst (serve now' req' (fst (serve now req w))))
     = database (fst (serve now' req' w)).
Proof.
  intros Hr.
  pose proof (read_keeps_database now req w Hr) as Hd.
  split; [exact Hd|].
  now apply serve_database_only.
Qed.

Lemma read_rows_only now q w1 w2 :
  creates q = None ->
  same_rows (database w1) (database w2) ->
  snd (serve now q w1) = snd (serve now q w2).
Proof.
  intros Hq (H1 & H2 & H3 & H4 & _ & H6 & H7 & _ & H9 & H10).
  rewrite !serve_eq.
  destruct q; try discriminate Hq;
    cbn [serve_spec]; unfold read_spec, found, lookup; cbn [snd listing];
    unfold Comment_item, user_of, presentation_of, lookup;
    rewrite ?H1, ?H2, ?H3, ?H4, ?H6, ?H7, ?H9, ?H10; reflexivity.
Qed.


(** ** The same payload twice *)

Lemma has_pk_next {R} (t : table R) (x : R) :
  fresh t = true ->
  has_pk (seq t + 1) (rows t ++ [(seq t, x)]) = false.
Proof.
  intros Hf.
  exact (fresh_unused
           {| rows := rows t ++ [(seq t, x)]; seq := seq t + 1 |}
           (fresh_insert _ _ Hf)).
Qed.

(** X8.  For an entity without a UNIQUE column, in a database requests can
    reach: when a create is answered 201, the same payload sent again is
    answered 201 as well, under another [id], and the table has two rows
    more than it had. *)
Theorem X8_same_payload_twice_gives_two_rows now now' req e w :
  wf_db (database w) = true ->
  creates req = Some e ->
  unique_name e = false ->
  status (snd (serve now req w)) = 201 ->
  let w1 := fst (serve now req w) in
  status (snd (serve now' req w1)) = 201
  /\ field "id" (body (snd (serve now' req w1)))
     <> field "id" (body (snd (serve now req w)))
  /\ size e (database (fst (serve now' req w1)))
     = S (S (size e (database w))).
Proof.
  rewrite wf_db_spec.
  intros (F1 & F2 & F3 & F4 & F5 & F6 & F7 & F8 & _) He Hu Hs. cbv zeta.
  by_request req; try discriminate Hs;
    injection He as <-; try discriminate Hu;
    destruct w as [d lv n]; destruct d;
    cbn in *; unfold references in *; cbn in *;
    try congruence;
    match goal with
    | H : has_pk (seq ?t) (rows ?t) || _ = false |- _ =>
        apply orb_false_iff in H as [Hk Hc]
    end;
    try (rewrite has_pk_next in * by assumption;
         rewrite ?Hc in *; discriminate);
    (split; [reflexivity|]);
    (split; [intros Hid; injection Hid; lia|]);
    rewrite !length_app; cbn; lia.
Qed.

(** ** What the read contracts leave out *)

Lemma listing_no_created_at e d :
  entity_eqb e EComment = false ->
  mentions "created_at" (JArr (listing e d)) = false.
Proof.
  intros He. rewrite mentions_arr.
  destruct e; try discriminate He; cbn [listing];
    apply existsb_map_false; intros p; item_has_no_key.
Qed.

(** X9.  Outside the two comment routes no response body has a key
    [created_at], at any depth: the creation time every create stores is
    shown for comments only. *)
Theorem X9_created_at_only_shown_for_comments now req w :
  comment_route req = false ->
  mentions "created_at" (body (snd (serve now req w))) = false.
Proof.
  intros Hc.
  by_request req; try discriminate Hc; unfold found, lookup;
    cbn [answer status body snd];
    try (apply listing_no_created_at; reflexivity);
    try reflexivity;
    try (destruct (find _ _); reflexivity || item_has_no_key);
    item_has_no_key.
Qed.

(** ** The password column *)

Lemma has_pk_next_row {R} k (x : R) (l : list (Z * R)) :
  has_pk k (l ++ [(k, x)]) = true.
Proof.
  unfold has_pk. rewrite existsb_app. cbn.
  now rewrite Z.eqb_refl, orb_true_r.
Qed.

(** X10.  When POST /users answers 201, the row stored under the new [id]
    holds the password exactly as it was supplied, and still does after
    any further sequence of requests. *)
Theorem X10_password_stored_as_supplied now user w tr :
  status (snd (serve now (POST_users user) w)) = 201 ->
  option_map (fun p => User.password (snd p))
    (lookup (next_id EUser (database w))
       (tbl_User (database
                    (run_requests tr (fst (serve now (POST_users user) w))))))
  = Some (UserCreate.password user).
Proof.
  intros Hs.
  destruct (run_requests_extends tr (fst (serve now (POST_users user) w)))
    as (_ & HU & _).
  rewrite serve_eq in *. cbn [serve_spec] in *. unfold create_spec in *.
  simpl_response. repeat (split_if; simpl_response); try discriminate Hs.
  apply orb_false_iff in Heqb0 as [Hk _].
  destruct w as [d lv n]; destruct d. cbn in Hk, HU |- *.
  destruct HU as [l HU]. unfold lookup. rewrite HU.
  rewrite find_app_found by now apply has_pk_next_row.
  now rewrite find_app_fresh.
Qed.

(** ** Lists *)



(** ** The session dependency *)

(** [get_db] hands on what runs inside it untouched: the value it returns
    or the exception it raises is the value or the exception of the
    whole, and the database is left as the dependant left it. *)
Lemma get_db_hands_on_the_outcome {H A}
    (dependant : Session -> M H A) (s : State H) :
  let db := {| sid := next_sid (world s) |} in
  let inside := dependant db (fst (SessionLocal s)) in
  snd (get_db dependant s) = snd inside
  /\ database (world (fst (get_db dependant s)))
     = database (world (fst inside))
  /\ heap (fst (get_db dependant s)) = heap (fst inside).
Proof.
  cbv zeta. unfold get_db, bind, try_finally, SessionLocal, Session_close.
  cbn. destruct (dependant _ _) as [s' r]. cbn. repeat split.
Qed.

(** ** Creates that have nothing to do with each other *)

Section Commute.
Context {R1 R2 : Type} `{M1 : Mapped R1} `{M2 : Mapped R2}.
Variable r1 : R1.
Variable r2 : R2.
Variable item1 : DB -> Z * R1 -> json.
Variable item2 : DB -> Z * R2 -> json.
Variable c1 c2 : Z.
Hypothesis get1_set2 : forall (t : table R2) d,
  get_table (R := R1) (set_table t d) = get_table d.
Hypothesis get2_set1 : forall (t : table R1) d,
  get_table (R := R2) (set_table t d) = get_table d.
Hypothesis constraints1_set2 : forall (t : table R2) d,
  constraints (set_table t d) r1 = constraints d r1.
Hypothesis constraints2_set1 : forall (t : table R1) d,
  constraints (set_table t d) r2 = constraints d r2.
Hypothesis set_set : forall (t1 : table R1) (t2 : table R2) d,
  set_table t1 (set_table t2 d) = set_table t2 (set_table t1 d).
Hypothesis item1_set2 : forall (t : table R2) d p,
  item1 (set_table t d) p = item1 d p.
Hypothesis item2_set1 : forall (t : table R1) d p,
  item2 (set_table t d) p = item2 d p.

Lemma create_spec_commute (w : World) :
  let a := create_spec c1 r1 item1 w in
  let ab := create_spec c2 r2 item2 (fst a) in
  let b := create_spec c2 r2 item2 w in
  let ba := create_spec c1 r1 item1 (fst b) in
  snd a = snd ba /\ snd ab = snd b /\ fst ab = fst ba.
Proof.
  cbv zeta. destruct w as [d lv n]. unfold create_spec, after_session.
  cbn [database].
  destruct (negb (in_range r1)), (negb (in_range r2));
    cbn [fst snd database live next_sid];
    rewrite ?get1_set2, ?get2_set1, ?constraints1_set2, ?constraints2_set1;
    try (repeat split; reflexivity).
  - destruct (has_pk _ (rows (get_table (R := R2) d)) || _);
      cbn [fst snd database live next_sid];
      repeat split; reflexivity.
  - destruct (has_pk _ (rows (get_table (R := R1) d)) || _);
      cbn [fst snd database live next_sid];
      repeat split; reflexivity.
  - destruct (has_pk _ (rows (get_table (R := R1) d)) || _) eqn:E1,
             (has_pk _ (rows (get_table (R := R2) d)) || _) eqn:E2;
      cbn [fst snd database live next_sid];
      rewrite ?get1_set2, ?get2_set1, ?constraints1_set2,
        ?constraints2_set1, ?E1, ?E2;
      cbn [fst snd database live next_sid];
      rewrite ?item1_set2, ?item2_set1;
      repeat split; try reflexivity;
      try (rewrite set_set; reflexivity);
      try (rewrite <- set_set, item2_set1; reflexivity);
      rewrite set_set, item1_set2; reflexivity.
Qed.
End Commute.

(** X13.  Two creates on entities with different tables and no foreign
    key between them commute: in either order each gets the same answer,
    and the world they leave is the same. *)
Theorem X13_unrelated_creates_commute n1 n2 req1 req2 e1 e2 w :
  creates req1 = Some e1 ->
  creates req2 = Some e2 ->
  unrelated e1 e2 = true ->
  let a := serve n1 req1 w in
  let ab := serve n2 req2 (fst a) in
  let b := serve n2 req2 w in
  let ba := serve n1 req1 (fst b) in
  snd a = snd ba /\ snd ab = snd b /\ fst ab = fst ba.
Proof.
  intros H1 H2 Hu. cbv zeta. rewrite !serve_eq.
  destruct req1; try discriminate H1; injection H1 as <-;
    destruct req2; try discriminate H2; injection H2 as <-;
    try discriminate Hu; clear Hu;
    cbn [serve_spec];
    apply create_spec_commute; intros; reflexivity.
Qed.

(** ** The connection string *)

Lemma append_cancel_l (p s s' : string) :
  (p ++ s)%string = (p ++ s')%string -> s = s'.
Proof.
  induction p as [|c p IH]; cbn; intros Heq; [exact Heq|].
  injection Heq as Heq. now apply IH.
Qed.

(** Two texts cut at the first occurrence of [c] are cut at the same
    place. *)
Lemma append_delimiter_inj (c : ascii) (a a' x x' : string) :
  occurs c a = false -> occurs c a' = false ->
  (a ++ String c x)%string = (a' ++ String c x')%string ->
  a = a' /\ x = x'.
Proof.
  revert a'. induction a as [|b a IH]; intros [|b' a'] Ha Ha' Heq;
    cbn in *.
  - injection Heq as Heq. now split.
  - injection Heq as Hc _. subst b'.
    now rewrite Ascii.eqb_refl in Ha'.
  - injection Heq as Hc _. subst b.
    now rewrite Ascii.eqb_refl in Ha.
  - injection Heq as Hb Heq. subst b'.
    apply orb_false_iff in Ha as [_ Ha].
    apply orb_false_iff in Ha' as [_ Ha'].
    destruct (IH a' Ha Ha' Heq) as [-> ->]. now split.
Qed.

(** X14.  When in neither of two environments the user or the host holds
    a colon, the password an at sign or the port a slash, equal
    connection strings mean equal user, password, host, port and database
    name: the string can be taken apart again without ambiguity. *)
Theorem X14_DATABASE_URL_determines_settings env1 env2 :
  delimited env1 = true ->
  delimited env2 = true ->
  DATABASE_URL env1 = DATABASE_URL env2 ->
  settings env1 = settings env2.
Proof.
  unfold delimited, DATABASE_URL, settings.
  intros H1 H2 Heq.
  repeat (apply andb_true_iff in H1 as [H1 ?]).
  repeat (apply andb_true_iff in H2 as [H2 ?]).
  repeat match goal with
    | H : negb _ = true |- _ => apply negb_true_iff in H
    end.
  apply append_cancel_l in Heq.
  apply append_delimiter_inj in Heq as [-> Heq]; [|assumption..].
  apply append_delimiter_inj in Heq as [-> Heq]; [|assumption..].
  apply append_delimiter_inj in Heq as [-> Heq]; [|assumption..].
  apply append_delimiter_inj in Heq as [-> ->]; [|assumption..].
  reflexivity.
Qed.

(** Without the condition the string is ambiguous: a colon in the user
    name moves the boundary between user and password. *)
Example DATABASE_URL_ambiguous :
  DATABASE_URL [("user", "a:b"); ("password", "c"); ("host", "h");
                ("port", "5432"); ("dbname", "d")]
  = DATABASE_URL [("user", "a"); ("password", "b:c"); ("host", "h");
                  ("port", "5432"); ("dbname", "d")].
Proof. reflexivity. Qed.

(** ** The join tables *)

(** X15.  No request adds a row to Artist_Gender or to
    Presentation_Artist, or draws from their sequences: after any
    sequence of requests the two tables are what they were. *)
Theorem X15_join_tables_are_never_written tr w :
  tbl_Artist_Gender (database (run_requests tr w))
  = tbl_Artist_Gender (database w)
  /\ tbl_Presentation_Artist (database (run_requests tr w))
     = tbl_Presentation_Artist (database w).
Proof.
  revert w. induction tr as [|[now req] tr IH]; intros w;
    cbn [run_requests]; [now split|].
  destruct (IH (fst (serve now req w))) as [-> ->].
  by_request req; destruct w as [d lv n]; destruct d; split; reflexivity.
Qed.

(** ** Get by identifier and list *)

Lemma has_id_shown {R} k (item : Z * R -> json) (t : table R) :
  (forall p, field "id" (item p) = Some (JInt (fst p))) ->
  existsb (has_id k) (map item (rows t)) = has_pk k (rows t).
Proof.
  intros Hid. unfold has_pk.
  induction (rows t) as [|p l IH]; cbn; [reflexivity|].
  unfold has_id at 1. now rewrite Hid, IH.
Qed.

Lemma lookup_has_pk {R} k (t : table R) :
  has_pk k (rows t) = match lookup k t with Some _ => true | None => false end.
Proof.
  unfold has_pk, lookup.
  induction (rows t) as [|p l IH]; cbn; [reflexivity|].
  destruct (fst p =? k); [reflexivity | exact IH].
Qed.


(** ** The properties above at concrete requests *)

Lemma X3_witness :
  snd (serve 103 (GET_users_id 1)
         (run_requests [(102, POST_roles admin)]
            (fst (serve 101 (POST_users alice) world_with_role))))
  = {| status := 200;
       body := body (snd (serve 101 (POST_users alice) world_with_role)) |}.
Proof.
  apply (@X3_created_row_is_found_by_id 101 (POST_users alice) ById_User
           world_with_role 1 [(102, POST_roles admin)] 103);
    reflexivity.
Defined.


Lemma X5_witness :
  status (snd (serve 101 (POST_users alice) empty_world)) = 500
  /\ same_rows (database empty_world)
               (database (fst (serve 101 (POST_users alice) empty_world))).
Proof.
  apply (@X5_dangling_foreign_key_rejected 101 (POST_users alice)
           empty_world).
  reflexivity.
Defined.

Lemma X6_witness :
  database (fst (serve 102 GET_users world_with_user))
  = database world_with_user
  /\ snd (serve 103 (POST_users alice')
            (fst (serve 102 GET_users world_with_user)))
     = snd (serve 103 (POST_users alice') world_with_user)
  /\ database (fst (serve 103 (POST_users alice')
                      (fst (serve 102 GET_users world_with_user))))
     = database (fst (serve 103 (POST_users alice') world_with_user)).
Proof.
  apply (@X6_reads_change_nothing 102 GET_users world_with_user 103
           (POST_users alice')).
  reflexivity.
Defined.


Lemma X8_witness :
  status (snd (serve 102 (POST_users alice)
                 (fst (serve 101 (POST_users alice) world_with_role))))
  = 201
  /\ field "id"
       (body (snd (serve 102 (POST_users alice)
                     (fst (serve 101 (POST_users alice) world_with_role)))))
     <> field "id" (body (snd (serve 101 (POST_users alice) world_with_role)))
  /\ size EUser
       (database
          (fst (serve 102 (POST_users alice)
                  (fst (serve 101 (POST_users alice) world_with_role)))))
     = S (S (size EUser (database world_with_role))).
Proof.
  apply (@X8_same_payload_twice_gives_two_rows 101 102 (POST_users alice)
           EUser world_with_role);
    reflexivity.
Defined.

Lemma X9_witness :
  mentions "created_at"
    (body (snd (serve 102 GET_users world_with_user))) = false.
Proof.
  apply (@X9_created_at_only_shown_for_comments 102 GET_users
           world_with_user).
  reflexivity.
Defined.

Lemma X10_witness :
  option_map (fun p => User.password (snd p))
    (lookup 1
       (tbl_User
          (database
             (run_requests [(102, POST_users alice')]
                (fst (serve 101 (POST_users alice) world_with_role))))))
  = Some "x".
Proof.
  apply (@X10_password_stored_as_supplied 101 alice world_with_role
           [(102, POST_users alice')]).
  reflexivity.
Defined.

Lemma X13_witness :
  snd (serve 101 (POST_artists (ArtistCreate.mk "B" "b.png")) world_with_role)
  = snd (serve 101 (POST_artists (ArtistCreate.mk "B" "b.png"))
           (fst (serve 102 (POST_events gala) world_with_role)))
  /\ snd (serve 102 (POST_events gala)
            (fst (serve 101 (POST_artists (ArtistCreate.mk "B" "b.png"))
                    world_with_role)))
     = snd (serve 102 (POST_events gala) world_with_role)
  /\ fst (serve 102 (POST_events gala)
            (fst (serve 101 (POST_artists (ArtistCreate.mk "B" "b.png"))
                    world_with_role)))
     = fst (serve 101 (POST_artists (ArtistCreate.mk "B" "b.png"))
              (fst (serve 102 (POST_events gala) world_with_role))).
Proof.
  apply (@X13_unrelated_creates_commute 101 102
           (POST_artists (ArtistCreate.mk "B" "b.png")) (POST_events gala)
           EArtist EEvent world_with_role);
    reflexivity.
Defined.

Lemma X14_witness : settings production = settings production'.
Proof.
  apply (@X14_DATABASE_URL_determines_settings production production');
    reflexivity.
Defined.
